(** * Pyrogram: [ChatPermissions._parse] and [SendMessage.send_message]

    A shallow embedding of

    - [pyrogram/client/types/user_and_chats/chat_permissions.py]
    - [pyrogram/client/methods/messages/send_message.py]

    Python values keep their dynamic shape where the code inspects it
    ([isinstance], attribute access, truthiness, [None]); the collaborators
    the client reaches through [self] are the fields of a record, and every
    call made through them is recorded in a trace. *)

From stdpp Require Import base option list gmap strings.

Local Open Scope string_scope.
Local Open Scope Z_scope.
Local Open Scope list_scope.

(** ** Python values *)

Module Py.

(** A flag or keyword argument annotated [bool = None]: [None], [True] or
    [False]. *)
Definition flag := option bool.

(** Truth value testing: [None] and [False] are false, [True] is true. *)
Definition truthy (v : flag) : bool :=
  match v with
  | Some b => b
  | None => false
  end.

(** [not v] always yields a [bool]. *)
Definition not_ (v : flag) : bool := negb (truthy v).

(** [a or b] on two [bool]s: the first operand when it is true, else the
    second. *)
Definition or_ (a b : bool) : bool := if a then a else b.

(** [v or None]: [v] when it is true, else [None]. *)
Definition or_None (v : flag) : flag := if truthy v then v else None.

(** An instance of a generated protocol class other than the ones given a
    record below: its class and its integer attributes. *)
Record object := Object {
  class_of : string;
  attrs : gmap string Z
}.

Definition isinstance (o : object) (cls : string) : bool :=
  bool_decide (class_of o = cls).

End Py.

(** ** chat_permissions.py *)

(** [types.ChatBannedRights]: the denial flags read by [_parse]. *)
Record ChatBannedRights := {
  send_messages : Py.flag;
  send_media : Py.flag;
  send_stickers : Py.flag;
  send_gifs : Py.flag;
  send_games : Py.flag;
  send_inline : Py.flag;
  embed_links : Py.flag;
  send_polls : Py.flag;
  change_info : Py.flag;
  invite_users : Py.flag;
  pin_messages : Py.flag
}.

(** [ChatPermissions.__init__]: eight keyword-only fields, each [bool = None]. *)
Record ChatPermissions := {
  can_send_messages : Py.flag;
  can_send_media_messages : Py.flag;
  can_send_other_messages : Py.flag;
  can_add_web_page_previews : Py.flag;
  can_send_polls : Py.flag;
  can_change_info : Py.flag;
  can_invite_users : Py.flag;
  can_pin_messages : Py.flag
}.

(** What a caller may hand to [_parse]: the annotation says
    [types.ChatBannedRights], the body tests it with [isinstance]. *)
Inductive denied_arg :=
  | IsChatBannedRights (r : ChatBannedRights)
  | IsNone
  | IsOther (o : Py.object).

Definition isinstance_ChatBannedRights (a : denied_arg) : bool :=
  match a with
  | IsChatBannedRights _ => true
  | _ => false
  end.

(** The [ChatPermissions(...)] expression of lines 85-97. *)
Definition permissions_of (d : ChatBannedRights) : ChatPermissions :=
  {| can_send_messages := Some (Py.not_ (send_messages d));
     can_send_media_messages := Some (Py.not_ (send_media d));
     can_send_other_messages :=
       Some (Py.or_ (Py.not_ (send_stickers d))
              (Py.or_ (Py.not_ (send_gifs d))
                (Py.or_ (Py.not_ (send_games d))
                        (Py.not_ (send_inline d)))));
     can_add_web_page_previews := Some (Py.not_ (embed_links d));
     can_send_polls := Some (Py.not_ (send_polls d));
     can_change_info := Some (Py.not_ (change_info d));
     can_invite_users := Some (Py.not_ (invite_users d));
     can_pin_messages := Some (Py.not_ (pin_messages d)) |}.

(** [ChatPermissions._parse]: the function falls off its end, and so returns
    [None], when the [isinstance] test fails. *)
Definition _parse (denied_permissions : denied_arg) : option ChatPermissions :=
  match denied_permissions with
  | IsChatBannedRights d => Some (permissions_of d)
  | _ => None
  end.

(** A denial record with every flag [False]. *)
Definition nothing_denied : ChatBannedRights :=
  {| send_messages := Some false; send_media := Some false;
     send_stickers := Some false; send_gifs := Some false;
     send_games := Some false; send_inline := Some false;
     embed_links := Some false; send_polls := Some false;
     change_info := Some false; invite_users := Some false;
     pin_messages := Some false |}.

(** A denial record built with every flag left at its default [None]. *)
Definition nothing_set : ChatBannedRights :=
  {| send_messages := None; send_media := None; send_stickers := None;
     send_gifs := None; send_games := None; send_inline := None;
     embed_links := None; send_polls := None; change_info := None;
     invite_users := None; pin_messages := None |}.

Definition all_allowed : ChatPermissions :=
  {| can_send_messages := Some true; can_send_media_messages := Some true;
     can_send_other_messages := Some true;
     can_add_web_page_previews := Some true; can_send_polls := Some true;
     can_change_info := Some true; can_invite_users := Some true;
     can_pin_messages := Some true |}.

(** ** send_message.py: the records it reads and builds *)

(** The object a Python name is bound to when it is a list: an address in
    the interpreter's heap. Two names alias when they hold the same
    address. *)
Definition loc := positive.

(** [pyrogram.api.types]: the generated protocol classes this flow touches. *)
Module types.

(** [InputPeerUser], [InputPeerChat], ... are plain objects; the code tests
    the class and reads [user_id] or [chat_id]. *)
Definition InputPeerUser (user_id access_hash : Z) : Py.object :=
  Py.Object "InputPeerUser" {[ "user_id" := user_id; "access_hash" := access_hash ]}.

Definition InputPeerChat (chat_id : Z) : Py.object :=
  Py.Object "InputPeerChat" {[ "chat_id" := chat_id ]}.

Definition InputPeerChannel (channel_id access_hash : Z) : Py.object :=
  Py.Object "InputPeerChannel" {[ "channel_id" := channel_id; "access_hash" := access_hash ]}.

Module UpdateShortSentMessage.
Record t := Make { id : Z; date : Z; out : Py.flag }.
End UpdateShortSentMessage.

(** An element of [r.users]: its [id] and the rest of its fields. *)
Module User.
Record t := Make { id : Z; fields : Py.object }.
End User.

(** An element of [r.chats]. *)
Module Chat.
Record t := Make { id : Z; fields : Py.object }.
End Chat.

(** An element of [r.updates]. The three classes named at line 159 carry
    a raw [message]; every other update class is an [UpdateOther]. *)
Inductive update :=
  | UpdateNewMessage (message : Py.object)
  | UpdateNewChannelMessage (message : Py.object)
  | UpdateNewScheduledMessage (message : Py.object)
  | UpdateOther (o : Py.object).

(** What [self.send] returns: an [UpdateShortSentMessage], an object with
    [updates], [users] and [chats], or any other object. *)
Inductive response :=
  | ShortSent (r : UpdateShortSentMessage.t)
  | Updates (updates : list update) (users : list User.t) (chats : list Chat.t)
  | OtherResponse (o : Py.object).

End types.

(** [pyrogram.api.functions]. *)
Module functions.

(** The keyword arguments of [functions.messages.SendMessage(...)],
    lines 122-132. [entities] is what the parser returned: [None] or a
    reference to a list. *)
Module SendMessage.
Record t := Make {
  peer : Py.object;
  no_webpage : Py.flag;
  silent : Py.flag;
  reply_to_msg_id : option Z;
  random_id : Z;
  schedule_date : option Z;
  reply_markup : option Py.object;
  message : string;
  entities : option loc
}.
End SendMessage.

End functions.

(** The domain objects of the [pyrogram] package. *)
Module pyrogram.

(** The keyword arguments of [pyrogram.Chat(...)], lines 146-150
    ([client=self] is the receiver itself). *)
Module Chat.
Record t := Make { id : Z; type : string }.
End Chat.

(** The keyword arguments of [pyrogram.Message(...)], lines 144-156; every
    one but [message_id] defaults to [None]. *)
Module Message.
Record t := Make {
  message_id : Z;
  chat : option Chat.t;
  text : option string;
  date : option Z;
  outgoing : Py.flag;
  entities : option loc
}.
End Message.

End pyrogram.

(** [chat_id: Union[int, str]]. *)
Inductive chat_ident :=
  | ChatInt (n : Z)
  | ChatStr (s : string).

(** [parse_mode: Union[str, None] = object]: the default is the sentinel
    [object], distinct from an explicit [None]. *)
Inductive parse_mode_arg :=
  | ModeUnset
  | ModeNone
  | ModeStr (s : string).

(** The styles the docstring of [send_message] names. *)
Inductive style :=
  | CombinedMarkdownHtml
  | MarkdownOnly
  | HtmlOnly
  | NoParsing.

(** Modelled from the spec: the parser's reading of its mode argument. The
    parser class is not part of these sources; the docstring of
    [send_message] (lines 54-59) and the spec's Entity Parser say: both
    styles by default, ["markdown"] or ["md"] for Markdown only, ["html"]
    for HTML only, [None] for no parsing. Other strings are left open. *)
Definition selected_style (m : parse_mode_arg) : option style :=
  match m with
  | ModeUnset => Some CombinedMarkdownHtml
  | ModeNone => Some NoParsing
  | ModeStr s =>
      if bool_decide (s = "markdown") || bool_decide (s = "md") then Some MarkdownOnly
      else if bool_decide (s = "html") then Some HtmlOnly
      else None
  end.

(** ** Exceptions, state and the trace of calls *)

Inductive exn :=
  | AttributeError (cls attr : string)
  | Failure (what : string).

Inductive result (A : Type) :=
  | Return (a : A)
  | Raise (e : exn).
Arguments Return {A} a.
Arguments Raise {A} e.

(** [o.attr] on a plain object. *)
Definition getattr (o : Py.object) (attr : string) : result Z :=
  match Py.attrs o !! attr with
  | Some v => Return v
  | None => Raise (AttributeError (Py.class_of o) attr)
  end.

(** One call made by [send_message] through [self] (or on [reply_markup]),
    with its arguments. *)
Inductive call :=
  | parser_parse_call (text : string) (mode : parse_mode_arg)
  | resolve_peer_call (chat_id : chat_ident)
  | rnd_id_call
  | write_call (reply_markup : Py.object)
  | send_call (request : functions.SendMessage.t)
  | Message_parse_call (message : Py.object)
      (users : gmap Z types.User.t) (chats : gmap Z types.Chat.t)
      (is_scheduled : bool).

Definition is_parser_parse_call (c : call) : bool :=
  match c with
  | parser_parse_call _ _ => true
  | _ => false
  end.

Definition is_resolve_peer_call (c : call) : bool :=
  match c with
  | resolve_peer_call _ => true
  | _ => false
  end.

(** The interpreter's heap of entity lists together with whatever else the
    client and the network hold. *)
Record state (X : Type) := State {
  heap : gmap loc (list Py.object);
  outside : X
}.
Arguments State {X} heap outside.
Arguments heap {X} s.
Arguments outside {X} s.

(** A collaborator: it may read and change the state, and return or raise. *)
Definition extern (X A : Type) : Type := state X → result A * state X.

(** A computation of [send_message]: as a collaborator, and it lists the
    calls it made, oldest first. *)
Definition M (X A : Type) : Type := state X → result A * state X * list call.

Definition ret {X A} (a : A) : M X A := λ s, (Return a, s, []).

Definition raise {X A} (e : exn) : M X A := λ s, (Raise e, s, []).

Definition bind {X A B} (m : M X A) (k : A → M X B) : M X B :=
  λ s,
    match m s with
    | (Return a, s1, t1) => let '(r, s2, t2) := k a s1 in (r, s2, t1 ++ t2)
    | (Raise e, s1, t1) => (Raise e, s1, t1)
    end.

(** Calling a collaborator records the call. *)
Definition invoke {X A} (c : call) (f : extern X A) : M X A :=
  λ s, let '(r, s1) := f s in (r, s1, [c]).

(** A pure step that may raise. *)
Definition lift {X A} (r : result A) : M X A := λ s, (r, s, []).

Notation "x <- m ;; k" := (bind m (λ x, k))
  (at level 100, m at next level, right associativity).

Definition value_of {X A} (o : result A * state X * list call) : result A := o.1.1.
Definition state_of {X A} (o : result A * state X * list call) : state X := o.1.2.
Definition trace_of {X A} (o : result A * state X * list call) : list call := o.2.

(** What [send_message] reaches through [self], and [reply_markup.write]. *)
Record Client (X : Type) := {
  parser_parse : string → parse_mode_arg → extern X (string * option loc);
  resolve_peer : chat_ident → extern X Py.object;
  rnd_id : extern X Z;
  reply_markup_write : Py.object → extern X Py.object;
  send : functions.SendMessage.t → extern X types.response;
  Message_parse :
    Py.object → gmap Z types.User.t → gmap Z types.Chat.t → bool →
    extern X pyrogram.Message.t
}.
Arguments parser_parse {X} c.
Arguments resolve_peer {X} c.
Arguments rnd_id {X} c.
Arguments reply_markup_write {X} c.
Arguments send {X} c.
Arguments Message_parse {X} c.

(** ** send_message.py: the method *)

Section send_message.
Context {X : Type} (self : Client X).

(** The dict comprehension [{i.id: i for i in xs}]: entries are stored in
    the order of [xs], a later one replacing an earlier one with its key. *)
Definition dict_by_id {A} (key : A → Z) (xs : list A) : gmap Z A :=
  foldl (λ d i, <[key i := i]> d) ∅ xs.

(** [isinstance(i, (types.UpdateNewMessage, types.UpdateNewChannelMessage,
    types.UpdateNewScheduledMessage))]. *)
Definition is_new_message_update (i : types.update) : bool :=
  match i with
  | types.UpdateNewMessage _ => true
  | types.UpdateNewChannelMessage _ => true
  | types.UpdateNewScheduledMessage _ => true
  | types.UpdateOther _ => false
  end.

(** [isinstance(i, types.UpdateNewScheduledMessage)]. *)
Definition is_UpdateNewScheduledMessage (i : types.update) : bool :=
  match i with
  | types.UpdateNewScheduledMessage _ => true
  | _ => false
  end.

(** [i.message]. *)
Definition update_message (i : types.update) : result Py.object :=
  match i with
  | types.UpdateNewMessage m => Return m
  | types.UpdateNewChannelMessage m => Return m
  | types.UpdateNewScheduledMessage m => Return m
  | types.UpdateOther o => Raise (AttributeError (Py.class_of o) "message")
  end.

(** Lines 158-165: the loop over [r.updates]; leaving it without a
    [return] makes the method return [None]. *)
Fixpoint scan_updates (updates : list types.update)
    (users : list types.User.t) (chats : list types.Chat.t)
    : M X (option pyrogram.Message.t) :=
  match updates with
  | [] => ret None
  | i :: rest =>
      if is_new_message_update i then
        message <- lift (update_message i) ;;
        parsed <- invoke
          (Message_parse_call message
             (dict_by_id types.User.id users) (dict_by_id types.Chat.id chats)
             (is_UpdateNewScheduledMessage i))
          (Message_parse self message
             (dict_by_id types.User.id users) (dict_by_id types.Chat.id chats)
             (is_UpdateNewScheduledMessage i)) ;;
        ret (Some parsed)
      else scan_updates rest users chats
  end.

(** Line 129: [reply_markup.write() if reply_markup else None]; a keyboard
    object is true, [None] is false. *)
Definition write_markup (reply_markup : option Py.object) : M X (option Py.object) :=
  match reply_markup with
  | Some k =>
      w <- invoke (write_call k) (reply_markup_write self k) ;;
      ret (Some w)
  | None => ret None
  end.

(** Lines 119-133: parse the text, build the request (keyword arguments
    are evaluated left to right) and send it. The parser's dict is
    unpacked into [message] and [entities]. *)
Definition build_and_send
    (chat_id : chat_ident) (text : string) (parse_mode : parse_mode_arg)
    (disable_web_page_preview disable_notification : Py.flag)
    (reply_to_message_id schedule_date : option Z)
    (reply_markup : option Py.object)
    : M X (string * option loc * types.response) :=
  parsed <- invoke (parser_parse_call text parse_mode)
                   (parser_parse self text parse_mode) ;;
  let '(message, entities) := parsed in
  peer <- invoke (resolve_peer_call chat_id) (resolve_peer self chat_id) ;;
  random_id <- invoke rnd_id_call (rnd_id self) ;;
  markup <- write_markup reply_markup ;;
  r <- invoke
    (send_call
       (functions.SendMessage.Make peer
          (Py.or_None disable_web_page_preview) (Py.or_None disable_notification)
          reply_to_message_id random_id schedule_date markup message entities))
    (send self
       (functions.SendMessage.Make peer
          (Py.or_None disable_web_page_preview) (Py.or_None disable_notification)
          reply_to_message_id random_id schedule_date markup message entities)) ;;
  ret (message, entities, r).

(** Lines 138-142: [peer.user_id if isinstance(peer, types.InputPeerUser)
    else -peer.chat_id]. *)
Definition peer_id_of (peer : Py.object) : result Z :=
  if Py.isinstance peer "InputPeerUser" then getattr peer "user_id"
  else
    match getattr peer "chat_id" with
    | Return c => Return (- c)
    | Raise e => Raise e
    end.

(** Lines 135-165: turn the response into a [Message], or [None]. *)
Definition resolve_response
    (chat_id : chat_ident) (message : string) (entities : option loc)
    (r : types.response) : M X (option pyrogram.Message.t) :=
  match r with
  | types.ShortSent r =>
      peer <- invoke (resolve_peer_call chat_id) (resolve_peer self chat_id) ;;
      peer_id <- lift (peer_id_of peer) ;;
      ret (Some
        (pyrogram.Message.Make
           (types.UpdateShortSentMessage.id r)
           (Some (pyrogram.Chat.Make peer_id "private"))
           (Some message)
           (Some (types.UpdateShortSentMessage.date r))
           (types.UpdateShortSentMessage.out r)
           entities))
  | types.Updates updates users chats => scan_updates updates users chats
  | types.OtherResponse o => raise (AttributeError (Py.class_of o) "updates")
  end.

(** [SendMessage.send_message]. *)
Definition send_message
    (chat_id : chat_ident) (text : string) (parse_mode : parse_mode_arg)
    (disable_web_page_preview disable_notification : Py.flag)
    (reply_to_message_id schedule_date : option Z)
    (reply_markup : option Py.object)
    : M X (option pyrogram.Message.t) :=
  sent <- build_and_send chat_id text parse_mode
            disable_web_page_preview disable_notification
            reply_to_message_id schedule_date reply_markup ;;
  let '(message, entities, r) := sent in
  resolve_response chat_id message entities r.

End send_message.

(** ** The heap seen through a reference *)

(** [xs.append(e)] on the list at address [l]. *)
Definition list_append {X} (l : loc) (e : Py.object) (s : state X) : state X :=
  State (alter (λ es, es ++ [e]) l (heap s)) (outside s).

(** The list a reference denotes ([None] denotes no list). *)
Definition deref {X} (r : option loc) (s : state X) : option (list Py.object) :=
  match r with
  | Some l => heap s !! l
  | None => None
  end.

(** ** A small client to run the method on *)

Module Demo.

(** The parser of the demo client allocates one list holding a bold entity
    over the whole text, and leaves the text as it is. *)
Definition bold (n : Z) : Py.object :=
  Py.Object "MessageEntityBold" {[ "offset" := 0; "length" := n ]}.

Definition parse (text : string) (mode : parse_mode_arg)
    : extern nat (string * option loc) :=
  λ s,
    let l := Pos.of_succ_nat (size (heap s)) in
    (Return (text, Some l),
     State (<[l := [bold (Z.of_nat (String.length text))]]> (heap s)) (outside s)).

(** The raw-message parser of the demo client: it keeps the record's [id]
    and reports the flag it was given in [outgoing]. *)
Definition parse_raw (message : Py.object)
    (users : gmap Z types.User.t) (chats : gmap Z types.Chat.t)
    (is_scheduled : bool) : extern nat pyrogram.Message.t :=
  λ s,
    (match getattr message "id" with
     | Return n => Return (pyrogram.Message.Make n None None None (Some is_scheduled) None)
     | Raise e => Raise e
     end, s).

(** The [n]-th call of [resolve_peer] answers [peers n]; [send] answers
    [reply]. The state counts the calls of [resolve_peer]. *)
Definition client (peers : nat → Py.object) (reply : types.response) : Client nat :=
  {| parser_parse := parse;
     resolve_peer := λ _ s, (Return (peers (outside s)), State (heap s) (S (outside s)));
     rnd_id := λ s, (Return 4242, s);
     reply_markup_write := λ k s, (Return k, s);
     send := λ _ s, (Return reply, s);
     Message_parse := parse_raw |}.

Definition start : state nat := State ∅ 0%nat.

(** Scenario B of the spec: a private chat with user 777. *)
Definition confirmation : types.response :=
  types.ShortSent (types.UpdateShortSentMessage.Make 42 1000 (Some true)).

Definition user_777 : nat → Py.object := λ _, types.InputPeerUser 777 0.

(** A basic group on both calls. *)
Definition group_5 : nat → Py.object := λ _, types.InputPeerChat 5.

(** A resolver whose second answer differs from its first. *)
Definition moving : nat → Py.object :=
  λ n, match n with
       | O => types.InputPeerUser 777 0
       | _ => types.InputPeerUser 778 0
       end.

(** A channel on both calls: a peer with neither [user_id] nor [chat_id]. *)
Definition channel_9 : nat → Py.object := λ _, types.InputPeerChannel 9 0.

(** [send_message(777, "hi", disable_web_page_preview=..., disable_notification=...)]
    on the demo client, every other argument left at its default. *)
Definition say (peers : nat → Py.object) (reply : types.response)
    (disable_web_page_preview disable_notification : Py.flag)
    : M nat (option pyrogram.Message.t) :=
  send_message (client peers reply) (ChatInt 777) "hi" ModeUnset
    disable_web_page_preview disable_notification None None None.

(** The request [say] hands to [send] when the peer is user 777. *)
Definition said (no_webpage silent : Py.flag) : functions.SendMessage.t :=
  functions.SendMessage.Make (types.InputPeerUser 777 0) no_webpage silent
    None 4242 None None "hi" (Some 1%positive).


Definition alice : types.User.t := types.User.Make 1 (Py.Object "User" {[ "bot" := 0 ]}).
Definition alice' : types.User.t := types.User.Make 1 (Py.Object "User" {[ "bot" := 1 ]}).
Definition bob : types.User.t := types.User.Make 2 (Py.Object "User" ∅).


(** A batch with no new-message update. *)
Definition side_effects_only : types.response :=
  types.Updates
    [types.UpdateOther (Py.Object "UpdateReadHistoryOutbox" ∅);
     types.UpdateOther (Py.Object "UpdateMessageID" ∅)]
    [alice] [].

End Demo.

(** ** More classifiers of calls *)

Definition is_rnd_id_call (c : call) : bool :=
  match c with
  | rnd_id_call => true
  | _ => false
  end.

Definition is_write_call (c : call) : bool :=
  match c with
  | write_call _ => true
  | _ => false
  end.

Definition is_send_call (c : call) : bool :=
  match c with
  | send_call _ => true
  | _ => false
  end.

Definition is_Message_parse_call (c : call) : bool :=
  match c with
  | Message_parse_call _ _ _ _ => true
  | _ => false
  end.

(** ** Clients whose collaborators fail *)

Module Faulty.

(** As [Demo.client], but the parser raises when [parse_fails], the call
    of [resolve_peer] numbered [peer_fails_at] raises, and [send] raises
    when [send_fails]. *)
Definition client (parse_fails : bool) (peer_fails_at : option nat)
    (send_fails : bool) (peers : nat → Py.object) (reply : types.response)
    : Client nat :=
  {| parser_parse := λ text mode s,
       if parse_fails then (Raise (Failure "parser"), s)
       else Demo.parse text mode s;
     resolve_peer := λ _ s,
       (if bool_decide (peer_fails_at = Some (outside s))
        then Raise (Failure "PEER_ID_INVALID")
        else Return (peers (outside s)),
        State (heap s) (S (outside s)));
     rnd_id := λ s, (Return 4242, s);
     reply_markup_write := λ k s, (Return k, s);
     send := λ _ s,
       if send_fails then (Raise (Failure "FLOOD_WAIT"), s)
       else (Return reply, s);
     Message_parse := Demo.parse_raw |}.

(** [send_message(777, "hi")] on such a client. *)
Definition say (parse_fails : bool) (peer_fails_at : option nat)
    (send_fails : bool) (peers : nat → Py.object) (reply : types.response)
    : M nat (option pyrogram.Message.t) :=
  send_message (client parse_fails peer_fails_at send_fails peers reply)
    (ChatInt 777) "hi" ModeUnset None None None None None.

(** A response that is neither a short confirmation nor a batch. *)
Definition unexpected : types.response :=
  types.OtherResponse (Py.Object "UpdateShortMessage" {[ "id" := 42 ]}).

(** A keyboard to send along. *)
Definition keyboard : Py.object := Py.Object "ReplyKeyboardMarkup" ∅.

End Faulty.

(** * Properties *)

(** ** chat_permissions.py *)

Lemma other_messages_allowed (d : ChatBannedRights) :
  can_send_other_messages (permissions_of d) = Some true ↔
  Py.truthy (send_stickers d) = false ∨ Py.truthy (send_gifs d) = false ∨
  Py.truthy (send_games d) = false ∨ Py.truthy (send_inline d) = false.
Proof.
  simpl. unfold Py.or_, Py.not_.
  destruct (Py.truthy (send_stickers d)), (Py.truthy (send_gifs d)),
    (Py.truthy (send_games d)), (Py.truthy (send_inline d)); simpl;
    intuition congruence.
Qed.

Lemma other_messages_denied (d : ChatBannedRights) :
  can_send_other_messages (permissions_of d) = Some false ↔
  Py.truthy (send_stickers d) = true ∧ Py.truthy (send_gifs d) = true ∧
  Py.truthy (send_games d) = true ∧ Py.truthy (send_inline d) = true.
Proof.
  simpl. unfold Py.or_, Py.not_.
  destruct (Py.truthy (send_stickers d)), (Py.truthy (send_gifs d)),
    (Py.truthy (send_games d)), (Py.truthy (send_inline d)); simpl;
    intuition congruence.
Qed.

(** C1. For a [ChatBannedRights] record the translator returns a
    [ChatPermissions] whose [can_send_other_messages] is [True] exactly when
    one of [send_stickers], [send_gifs], [send_games], [send_inline] is
    false, and [False] exactly when all four are true; every other allow
    flag is the negation of its denial flag; and a record with every flag
    [False] (or unset) yields every allow flag [True]. *)
Theorem C1_parse_negates_denials (d : ChatBannedRights) :
  ∃ p, _parse (IsChatBannedRights d) = Some p ∧
    (can_send_other_messages p = Some true ↔
       Py.truthy (send_stickers d) = false ∨ Py.truthy (send_gifs d) = false ∨
       Py.truthy (send_games d) = false ∨ Py.truthy (send_inline d) = false) ∧
    (can_send_other_messages p = Some false ↔
       Py.truthy (send_stickers d) = true ∧ Py.truthy (send_gifs d) = true ∧
       Py.truthy (send_games d) = true ∧ Py.truthy (send_inline d) = true) ∧
    can_send_messages p = Some (negb (Py.truthy (send_messages d))) ∧
    can_send_media_messages p = Some (negb (Py.truthy (send_media d))) ∧
    can_add_web_page_previews p = Some (negb (Py.truthy (embed_links d))) ∧
    can_send_polls p = Some (negb (Py.truthy (send_polls d))) ∧
    can_change_info p = Some (negb (Py.truthy (change_info d))) ∧
    can_invite_users p = Some (negb (Py.truthy (invite_users d))) ∧
    can_pin_messages p = Some (negb (Py.truthy (pin_messages d))) ∧
    _parse (IsChatBannedRights nothing_denied) = Some all_allowed ∧
    _parse (IsChatBannedRights nothing_set) = Some all_allowed.
Proof.
  exists (permissions_of d). split; [reflexivity|].
  split; [apply other_messages_allowed|].
  split; [apply other_messages_denied|].
  repeat split.
Qed.

(** Scenario E of the spec: three of the four denied, [send_inline] not. *)
Example scenario_E (d : ChatBannedRights) :
  send_stickers d = Some true → send_gifs d = Some true →
  send_games d = Some true → send_inline d = Some false →
  can_send_other_messages (permissions_of d) = Some true.
Proof. intros H1 H2 H3 H4. simpl. rewrite H1, H2, H3, H4. reflexivity. Qed.

(** C9. [_parse] returns [None] for every argument that is not a
    [ChatBannedRights], and a [ChatPermissions] exactly for those that are;
    it never raises. *)
Theorem C9_parse_None_unless_banned_rights (a : denied_arg) :
  (_parse a = None ↔ isinstance_ChatBannedRights a = false) ∧
  (is_Some (_parse a) ↔ ∃ d, a = IsChatBannedRights d) ∧
  _parse IsNone = None ∧
  (∀ o, _parse (IsOther o) = None).
Proof.
  split; [|split; [|split]].
  - destruct a; simpl; split; congruence.
  - split.
    + destruct a; intros [p Hp]; simpl in Hp; try discriminate. eauto.
    + intros [d ->]. simpl. eauto.
  - reflexivity.
  - reflexivity.
Qed.

(** ** send_message.py: running a computation *)

Section running.
Context {X : Type}.

Lemma bind_Return {A B} (m : M X A) (k : A → M X B) s a s1 t1 :
  m s = (Return a, s1, t1) →
  bind m k s = (value_of (k a s1), state_of (k a s1), t1 ++ trace_of (k a s1)).
Proof.
  intros H. unfold bind, value_of, state_of, trace_of. rewrite H.
  destruct (k a s1) as [[r s2] t2]. reflexivity.
Qed.

Lemma bind_Raise {A B} (m : M X A) (k : A → M X B) s e s1 t1 :
  m s = (Raise e, s1, t1) → bind m k s = (Raise e, s1, t1).
Proof. intros H. unfold bind. rewrite H. reflexivity. Qed.

Lemma bind_Return_inv {A B} (m : M X A) (k : A → M X B) s b s2 t :
  bind m k s = (Return b, s2, t) →
  ∃ a s1 t1 t2,
    m s = (Return a, s1, t1) ∧ k a s1 = (Return b, s2, t2) ∧ t = t1 ++ t2.
Proof.
  unfold bind. destruct (m s) as [[[a|e] s1] t1]; [|discriminate].
  destruct (k a s1) as [[r s2'] t2] eqn:Hk. intros [= -> -> <-].
  exists a, s1, t1, t2. rewrite Hk. auto.
Qed.

Lemma invoke_inv {A} (c : call) (f : extern X A) s r s1 t :
  invoke c f s = (r, s1, t) → f s = (r, s1) ∧ t = [c].
Proof.
  unfold invoke. destruct (f s) as [r' s']. intros [= -> -> <-]. auto.
Qed.

Lemma invoke_trace {A} (c : call) (f : extern X A) s :
  trace_of (invoke c f s) = [c].
Proof. unfold invoke, trace_of. destruct (f s). reflexivity. Qed.

Lemma invoke_value {A} (c : call) (f : extern X A) s :
  value_of (invoke c f s) = (f s).1.
Proof. unfold invoke, value_of. destruct (f s). reflexivity. Qed.

Lemma invoke_state {A} (c : call) (f : extern X A) s :
  state_of (invoke c f s) = (f s).2.
Proof. unfold invoke, state_of. destruct (f s). reflexivity. Qed.

Lemma bind_trace {A B} (m : M X A) (k : A → M X B) s :
  trace_of (bind m k s) =
  trace_of (m s) ++
  match value_of (m s) with
  | Return a => trace_of (k a (state_of (m s)))
  | Raise _ => []
  end.
Proof.
  unfold bind, trace_of, value_of, state_of.
  destruct (m s) as [[[a|e] s1] t1]; simpl.
  - destruct (k a s1) as [[r s2] t2]. reflexivity.
  - symmetry. apply app_nil_r.
Qed.

End running.

(** ** send_message.py *)

Section facts.
Context {X : Type} (self : Client X).
Variables (chat_id : chat_ident) (text : string) (parse_mode : parse_mode_arg).
Variables (disable_web_page_preview disable_notification : Py.flag).
Variables (reply_to_message_id schedule_date : option Z).
Variable (reply_markup : option Py.object).

Abbreviation build := (build_and_send self chat_id text parse_mode
  disable_web_page_preview disable_notification
  reply_to_message_id schedule_date reply_markup).

(** What a call of a run looks like, seen from the state [s] the run
    started in: it is not a call of the parser, and when it is the call of
    [send], its request carries the parser's output and the two flags. *)
Abbreviation built_from s := (λ c : call,
  is_parser_parse_call c = false ∧
  ∀ rq, c = send_call rq →
    functions.SendMessage.no_webpage rq = Py.or_None disable_web_page_preview ∧
    functions.SendMessage.silent rq = Py.or_None disable_notification ∧
    ∃ sp, parser_parse self text parse_mode s =
            (Return (functions.SendMessage.message rq,
                     functions.SendMessage.entities rq), sp)).

Lemma write_markup_trace s :
  Forall (λ c, ∃ k, c = write_call k) (trace_of (write_markup self reply_markup s)).
Proof.
  unfold write_markup. destruct reply_markup as [k|]; [|constructor].
  rewrite bind_trace, invoke_trace.
  destruct (value_of _); simpl; repeat constructor; eauto.
Qed.

Lemma build_and_send_trace s :
  ∃ rest,
    trace_of (build s) = parser_parse_call text parse_mode :: rest ∧
    Forall (built_from s) rest.
Proof.
  unfold build_and_send. rewrite bind_trace, invoke_trace.
  eexists. split; [reflexivity|].
  rewrite invoke_value, invoke_state.
  destruct (parser_parse self text parse_mode s) as [[[message entities]|e] sp] eqn:Hp;
    simpl; [|constructor].
  rewrite bind_trace, invoke_trace. simpl.
  constructor. { split; [reflexivity|]. intros rq [=]. }
  destruct (value_of (invoke _ _ sp)) as [peer|e]; [|constructor].
  rewrite bind_trace, invoke_trace. simpl.
  constructor. { split; [reflexivity|]. intros rq [=]. }
  destruct (value_of (invoke _ _ _)) as [random_id|e]; [|constructor].
  rewrite bind_trace. apply Forall_app. split.
  { eapply Forall_impl; [apply write_markup_trace|].
    intros c [k ->]. split; [reflexivity|]. intros rq [=]. }
  destruct (value_of (write_markup _ _ _)) as [markup|e]; [|constructor].
  rewrite bind_trace, invoke_trace. simpl.
  constructor.
  { split; [reflexivity|]. intros rq [= <-]. simpl. eauto. }
  destruct (value_of (invoke _ _ _)); constructor.
Qed.

Abbreviation run := (send_message self chat_id text parse_mode
  disable_web_page_preview disable_notification
  reply_to_message_id schedule_date reply_markup).

Lemma scan_updates_trace updates users chats s :
  Forall (λ c, ∃ m us cs b, c = Message_parse_call m us cs b)
    (trace_of (scan_updates self updates users chats s)).
Proof.
  induction updates as [|i rest IH]; cbn [scan_updates]; [constructor|].
  destruct (is_new_message_update i); [|exact IH].
  rewrite bind_trace. unfold lift at 1 2 3. cbn [value_of state_of trace_of fst snd].
  destruct (update_message i) as [m|e]; [|constructor].
  rewrite bind_trace, invoke_trace. simpl.
  constructor; [eauto|]. destruct (value_of _); constructor.
Qed.

Lemma resolve_response_trace message entities r s :
  Forall (λ c, is_parser_parse_call c = false ∧ ∀ rq, c ≠ send_call rq)
    (trace_of (resolve_response self chat_id message entities r s)).
Proof.
  destruct r as [c|updates users chats|o]; cbn [resolve_response].
  - rewrite bind_trace, invoke_trace. simpl. constructor; [split; [done|congruence]|].
    destruct (value_of _) as [peer|e]; [|constructor].
    rewrite bind_trace. unfold lift at 1 2 3. cbn [value_of state_of trace_of fst snd].
    destruct (peer_id_of peer); constructor.
  - eapply Forall_impl; [apply scan_updates_trace|].
    intros c (m & us & cs & b & ->). split; [done|congruence].
  - constructor.
Qed.

Lemma send_message_trace s :
  ∃ rest,
    trace_of (run s) = parser_parse_call text parse_mode :: rest ∧
    Forall (built_from s) rest.
Proof.
  destruct (build_and_send_trace s) as (rest & Hb & Hrest).
  unfold send_message. rewrite bind_trace, Hb. simpl.
  eexists. split; [reflexivity|].
  apply Forall_app. split; [exact Hrest|].
  destruct (value_of (build s)) as [[[message entities] r]|e]; [|constructor].
  eapply Forall_impl; [apply resolve_response_trace|].
  intros c [Hc Hrq]. split; [exact Hc|]. intros rq ->. destruct (Hrq rq eq_refl).
Qed.

Lemma request_is_sent s message entities sp peer s2 random_id s3 markup s4 tw :
  parser_parse self text parse_mode s = (Return (message, entities), sp) →
  resolve_peer self chat_id sp = (Return peer, s2) →
  rnd_id self s2 = (Return random_id, s3) →
  write_markup self reply_markup s3 = (Return markup, s4, tw) →
  send_call
    (functions.SendMessage.Make peer
       (Py.or_None disable_web_page_preview) (Py.or_None disable_notification)
       reply_to_message_id random_id schedule_date markup message entities)
    ∈ trace_of (run s).
Proof.
  intros Hp Hr Hi Hw.
  unfold send_message. rewrite bind_trace, elem_of_app. left.
  unfold build_and_send.
  rewrite bind_trace, invoke_trace, invoke_value, invoke_state, Hp.
  cbn [fst snd].
  rewrite bind_trace, invoke_trace, invoke_value, invoke_state, Hr.
  cbn [fst snd].
  rewrite bind_trace, invoke_trace, invoke_value, invoke_state, Hi.
  cbn [fst snd].
  rewrite bind_trace. unfold value_of at 1, state_of at 1. rewrite Hw.
  cbn [fst snd].
  rewrite bind_trace, invoke_trace.
  rewrite !elem_of_app, !elem_of_cons. auto 10.
Qed.

(** C7. Whatever the collaborators do, a call of [send_message] calls the
    parser exactly once, with the caller's [text] and [parse_mode] (the
    sentinel, which stands for the combined style, when the caller passes
    none). Once [resolve_peer], [rnd_id] and [reply_markup.write] have
    returned, a request is handed to [send], and every request handed to
    [send] carries the plain text and the entities that this one call of
    the parser returned. *)
Theorem C7_parser_called_once s :
  List.filter is_parser_parse_call (trace_of (run s)) =
    [parser_parse_call text parse_mode] ∧
  (∀ rq, send_call rq ∈ trace_of (run s) →
     ∃ sp, parser_parse self text parse_mode s =
             (Return (functions.SendMessage.message rq,
                      functions.SendMessage.entities rq), sp)) ∧
  selected_style ModeUnset = Some CombinedMarkdownHtml ∧
  (∀ message entities sp peer s2 random_id s3 markup s4 tw,
     parser_parse self text parse_mode s = (Return (message, entities), sp) →
     resolve_peer self chat_id sp = (Return peer, s2) →
     rnd_id self s2 = (Return random_id, s3) →
     write_markup self reply_markup s3 = (Return markup, s4, tw) →
     send_call
       (functions.SendMessage.Make peer
          (Py.or_None disable_web_page_preview) (Py.or_None disable_notification)
          reply_to_message_id random_id schedule_date markup message entities)
       ∈ trace_of (run s)) ∧
  (∀ text' mode, parser_parse_call text' mode ∈ trace_of (run s) →
     text' = text ∧ mode = parse_mode ∧
     (parse_mode = ModeUnset → selected_style mode = Some CombinedMarkdownHtml)).
Proof.
  split; [|split; [|split; [reflexivity|split]]].
  - destruct (send_message_trace s) as (rest & -> & Hrest).
    simpl. f_equal.
    induction Hrest as [|c rest [Hc _] _ IH]; simpl; [reflexivity|].
    rewrite Hc. exact IH.
  - destruct (send_message_trace s) as (rest & -> & Hrest).
    intros rq Hin. apply elem_of_cons in Hin as [[=]|Hin].
    rewrite Forall_forall in Hrest.
    destruct (Hrest _ Hin) as [_ Hrq].
    destruct (Hrq rq eq_refl) as (_ & _ & Hp). exact Hp.
  - intros message entities sp peer s2 random_id s3 markup s4 tw.
    apply request_is_sent.
  - destruct (send_message_trace s) as (rest & -> & Hrest).
    intros text' mode Hin. apply elem_of_cons in Hin as [[= -> ->]|Hin].
    + split; [reflexivity|]. split; [reflexivity|]. intros ->. reflexivity.
    + rewrite Forall_forall in Hrest. destruct (Hrest _ Hin) as [Hc _].
      discriminate Hc.
Qed.

Lemma or_None_true_iff (v : Py.flag) : Py.or_None v = Some true ↔ v = Some true.
Proof. destruct v as [[]|]; cbn; split; intros H; congruence. Qed.

Lemma or_None_absent (v : Py.flag) : v ≠ Some true → Py.or_None v = None.
Proof. destruct v as [[]|]; cbn; intros H; congruence. Qed.

Lemma or_None_never_False (v : Py.flag) : Py.or_None v ≠ Some false.
Proof. destruct v as [[]|]; cbn; congruence. Qed.

(** C2. In the request a call of [send_message] hands to [send],
    [no_webpage] is [True] exactly when the caller passed
    [disable_web_page_preview=True] and [silent] is [True] exactly when the
    caller passed [disable_notification=True]; for [False] or an argument
    left unset the field is [None], and it is never [False]. *)
Theorem C2_flags_absent_unless_true s rq :
  send_call rq ∈ trace_of (run s) →
  (functions.SendMessage.no_webpage rq = Some true ↔
     disable_web_page_preview = Some true) ∧
  (functions.SendMessage.silent rq = Some true ↔
     disable_notification = Some true) ∧
  (disable_web_page_preview ≠ Some true →
     functions.SendMessage.no_webpage rq = None) ∧
  (disable_notification ≠ Some true →
     functions.SendMessage.silent rq = None) ∧
  functions.SendMessage.no_webpage rq ≠ Some false ∧
  functions.SendMessage.silent rq ≠ Some false.
Proof.
  intros Hin.
  destruct (send_message_trace s) as (rest & Ht & Hrest).
  rewrite Ht in Hin. apply elem_of_cons in Hin as [[=]|Hin].
  rewrite Forall_forall in Hrest.
  destruct (Hrest _ Hin) as [_ Hrq].
  destruct (Hrq rq eq_refl) as (-> & -> & _).
  repeat split; try apply or_None_true_iff;
    auto using or_None_absent, or_None_never_False.
Qed.

(** *** From the request to the response *)

Abbreviation request peer random_id markup message entities :=
  (functions.SendMessage.Make peer
     (Py.or_None disable_web_page_preview) (Py.or_None disable_notification)
     reply_to_message_id random_id schedule_date markup message entities).

Lemma build_and_send_Return s0 s1 t1 message entities r :
  build s0 = (Return (message, entities, r), s1, t1) →
  ∃ sp peer s2 random_id s3 markup s4 tw,
    parser_parse self text parse_mode s0 = (Return (message, entities), sp) ∧
    resolve_peer self chat_id sp = (Return peer, s2) ∧
    rnd_id self s2 = (Return random_id, s3) ∧
    write_markup self reply_markup s3 = (Return markup, s4, tw) ∧
    send self (request peer random_id markup message entities) s4 = (Return r, s1) ∧
    t1 = [parser_parse_call text parse_mode; resolve_peer_call chat_id; rnd_id_call]
           ++ tw ++ [send_call (request peer random_id markup message entities)].
Proof.
  unfold build_and_send. intros H.
  apply bind_Return_inv in H as ([message' entities'] & sp & ? & ? & Hparse & H & ->).
  apply invoke_inv in Hparse as [Hparse ->].
  apply bind_Return_inv in H as (peer & s2 & ? & ? & Hpeer & H & ->).
  apply invoke_inv in Hpeer as [Hpeer ->].
  apply bind_Return_inv in H as (random_id & s3 & ? & ? & Hrnd & H & ->).
  apply invoke_inv in Hrnd as [Hrnd ->].
  apply bind_Return_inv in H as (markup & s4 & tw & ? & Hw & H & ->).
  apply bind_Return_inv in H as (r' & s1' & ? & ? & Hsend & H & ->).
  apply invoke_inv in Hsend as [Hsend ->].
  injection H as -> -> -> -> <-.
  exists sp, peer, s2, random_id, s3, markup, s4, tw.
  repeat split; assumption.
Qed.

Lemma run_after_build s0 s1 t1 message entities r :
  build s0 = (Return (message, entities, r), s1, t1) →
  run s0 =
    (value_of (resolve_response self chat_id message entities r s1),
     state_of (resolve_response self chat_id message entities r s1),
     t1 ++ trace_of (resolve_response self chat_id message entities r s1)).
Proof. intros H. unfold send_message. exact (bind_Return _ _ _ _ _ _ H). Qed.

(** *** The short confirmation *)

Abbreviation short_message c peer_id message entities :=
  (pyrogram.Message.Make
     (types.UpdateShortSentMessage.id c)
     (Some (pyrogram.Chat.Make peer_id "private"))
     (Some message)
     (Some (types.UpdateShortSentMessage.date c))
     (types.UpdateShortSentMessage.out c)
     entities).

Lemma resolve_short_sent message entities c s1 :
  resolve_response self chat_id message entities (types.ShortSent c) s1 =
    (match (resolve_peer self chat_id s1).1 with
     | Return peer =>
         match peer_id_of peer with
         | Return n => Return (Some (short_message c n message entities))
         | Raise e => Raise e
         end
     | Raise e => Raise e
     end,
     (resolve_peer self chat_id s1).2,
     [resolve_peer_call chat_id]).
Proof.
  cbn [resolve_response]. unfold bind, invoke, lift, ret.
  destruct (resolve_peer self chat_id s1) as [[peer|e] s2]; [|reflexivity].
  simpl. destruct (peer_id_of peer); reflexivity.
Qed.

Lemma peer_id_of_user peer u :
  Py.isinstance peer "InputPeerUser" = true →
  Py.attrs peer !! "user_id" = Some u →
  peer_id_of peer = Return u.
Proof. unfold peer_id_of, getattr. intros -> ->. reflexivity. Qed.

Lemma peer_id_of_chat peer g :
  Py.isinstance peer "InputPeerUser" = false →
  Py.attrs peer !! "chat_id" = Some g →
  peer_id_of peer = Return (- g).
Proof. unfold peer_id_of, getattr. intros -> ->. reflexivity. Qed.

(** A peer that is neither a user peer nor carries [chat_id] (a channel
    peer, the [self] peer) makes line 141 raise. *)
Lemma peer_id_of_no_chat_id peer :
  Py.isinstance peer "InputPeerUser" = false →
  Py.attrs peer !! "chat_id" = None →
  peer_id_of peer = Raise (AttributeError (Py.class_of peer) "chat_id").
Proof. unfold peer_id_of, getattr. intros -> ->. reflexivity. Qed.

Lemma run_short_sent s0 s1 t1 message entities c :
  build s0 = (Return (message, entities, types.ShortSent c), s1, t1) →
  run s0 =
    (match (resolve_peer self chat_id s1).1 with
     | Return peer =>
         match peer_id_of peer with
         | Return n => Return (Some (short_message c n message entities))
         | Raise e => Raise e
         end
     | Raise e => Raise e
     end,
     (resolve_peer self chat_id s1).2,
     t1 ++ [resolve_peer_call chat_id]).
Proof.
  intros H. rewrite (run_after_build _ _ _ _ _ _ H), resolve_short_sent.
  reflexivity.
Qed.

(** C3, as the code has it. When [send] answers with an
    [UpdateShortSentMessage] and the second [resolve_peer] answers with a
    peer, [send_message] returns the [Message] whose [message_id], [date]
    and [outgoing] are the confirmation's [id], [date] and [out], and
    whose chat has type ["private"] and, as its id, the peer's [user_id]
    when the peer is an [InputPeerUser] and minus its [chat_id] when it is
    another peer that carries a [chat_id]. *)
Theorem C3_short_sent_message s0 s1 t1 message entities c peer s2 :
  build s0 = (Return (message, entities, types.ShortSent c), s1, t1) →
  resolve_peer self chat_id s1 = (Return peer, s2) →
  (Py.isinstance peer "InputPeerUser" = true →
   ∀ u, Py.attrs peer !! "user_id" = Some u →
     value_of (run s0) =
       Return (Some (pyrogram.Message.Make
         (types.UpdateShortSentMessage.id c)
         (Some (pyrogram.Chat.Make u "private"))
         (Some message)
         (Some (types.UpdateShortSentMessage.date c))
         (types.UpdateShortSentMessage.out c)
         entities))) ∧
  (Py.isinstance peer "InputPeerUser" = false →
   ∀ g, Py.attrs peer !! "chat_id" = Some g →
     value_of (run s0) =
       Return (Some (pyrogram.Message.Make
         (types.UpdateShortSentMessage.id c)
         (Some (pyrogram.Chat.Make (- g) "private"))
         (Some message)
         (Some (types.UpdateShortSentMessage.date c))
         (types.UpdateShortSentMessage.out c)
         entities))).
Proof.
  intros Hb Hpeer. rewrite (run_short_sent _ _ _ _ _ _ Hb), Hpeer.
  split.
  - intros Hu u Hattr. cbn. rewrite (peer_id_of_user _ _ Hu Hattr). reflexivity.
  - intros Hu g Hattr. cbn. rewrite (peer_id_of_chat _ _ Hu Hattr). reflexivity.
Qed.

(** C6. On an [UpdateShortSentMessage] the returned [Message] has as
    [text] and [entities] the very pair the parser returned before the
    request was built; nothing of the confirmation enters them. *)
Theorem C6_text_and_entities_from_parser s0 s1 t1 message entities c peer s2 n :
  build s0 = (Return (message, entities, types.ShortSent c), s1, t1) →
  resolve_peer self chat_id s1 = (Return peer, s2) →
  peer_id_of peer = Return n →
  ∃ m sp,
    value_of (run s0) = Return (Some m) ∧
    parser_parse self text parse_mode s0 = (Return (message, entities), sp) ∧
    pyrogram.Message.text m = Some message ∧
    pyrogram.Message.entities m = entities.
Proof.
  intros Hb Hpeer Hn.
  destruct (build_and_send_Return _ _ _ _ _ _ Hb) as (sp & _ & _ & _ & _ & _ & _ & _ & Hp & _).
  exists (short_message c n message entities), sp.
  rewrite (run_short_sent _ _ _ _ _ _ Hb), Hpeer. cbn. rewrite Hn.
  auto.
Qed.

Lemma write_markup_no_resolve s :
  List.filter is_resolve_peer_call (trace_of (write_markup self reply_markup s)) = [].
Proof.
  induction (write_markup_trace s) as [|c rest [k ->] _ IH]; [reflexivity|exact IH].
Qed.

(** C10. When [send] answers with an [UpdateShortSentMessage],
    [send_message] has called [resolve_peer] twice with the caller's
    [chat_id]: once before [send], for the request, and once more right
    after it; the chat of the returned [Message] is computed from what the
    second call answers, in the state [send] left, not from the request's
    [peer]. *)
Theorem C10_resolve_peer_called_again s0 s1 t1 message entities c :
  build s0 = (Return (message, entities, types.ShortSent c), s1, t1) →
  List.filter is_resolve_peer_call (trace_of (run s0)) =
    [resolve_peer_call chat_id; resolve_peer_call chat_id] ∧
  (∃ before rq,
     trace_of (run s0) = before ++ [send_call rq; resolve_peer_call chat_id] ∧
     List.filter is_resolve_peer_call before = [resolve_peer_call chat_id]) ∧
  state_of (run s0) = (resolve_peer self chat_id s1).2 ∧
  value_of (run s0) =
    match (resolve_peer self chat_id s1).1 with
    | Return peer =>
        match peer_id_of peer with
        | Return n =>
            Return (Some (pyrogram.Message.Make
              (types.UpdateShortSentMessage.id c)
              (Some (pyrogram.Chat.Make n "private"))
              (Some message)
              (Some (types.UpdateShortSentMessage.date c))
              (types.UpdateShortSentMessage.out c)
              entities))
        | Raise e => Raise e
        end
    | Raise e => Raise e
    end.
Proof.
  intros Hb. rewrite (run_short_sent _ _ _ _ _ _ Hb).
  destruct (build_and_send_Return _ _ _ _ _ _ Hb)
    as (sp & peer & s2 & random_id & s3 & markup & s4 & tw & _ & _ & _ & Hw & _ & ->).
  assert (Htw : List.filter is_resolve_peer_call tw = []).
  { pose proof (write_markup_no_resolve s3) as H. rewrite Hw in H. exact H. }
  cbn [trace_of state_of value_of fst snd].
  split; [|split; [|split; reflexivity]].
  - rewrite !List.filter_app, Htw. reflexivity.
  - exists ([parser_parse_call text parse_mode; resolve_peer_call chat_id; rnd_id_call] ++ tw),
      (request peer random_id markup message entities).
    split.
    + rewrite <- !app_assoc. reflexivity.
    + rewrite List.filter_app, Htw. reflexivity.
Qed.

(** C8, as the code has it. On an [UpdateShortSentMessage] the returned
    [Message] holds in [entities] the very object the parser returned and
    the request handed to [send] holds: the same reference, no copy, so an
    element appended through the request's reference is read through the
    message's. *)
Theorem C8_entities_shared_with_request s0 s1 t1 message entities c peer s2 n :
  build s0 = (Return (message, entities, types.ShortSent c), s1, t1) →
  resolve_peer self chat_id s1 = (Return peer, s2) →
  peer_id_of peer = Return n →
  ∃ m rq sp,
    value_of (run s0) = Return (Some m) ∧
    send_call rq ∈ trace_of (run s0) ∧
    parser_parse self text parse_mode s0 = (Return (message, entities), sp) ∧
    pyrogram.Message.entities m = entities ∧
    (∀ rq', send_call rq' ∈ trace_of (run s0) →
       functions.SendMessage.entities rq' = pyrogram.Message.entities m) ∧
    (∀ l e (st : state X),
       functions.SendMessage.entities rq = Some l →
       deref (pyrogram.Message.entities m) (list_append l e st) =
         (λ es, es ++ [e]) <$> deref (pyrogram.Message.entities m) st).
Proof.
  intros Hb Hpeer Hn.
  destruct (build_and_send_Return _ _ _ _ _ _ Hb)
    as (sp & peer0 & s2' & random_id & s3 & markup & s4 & tw & Hp & _ & _ & _ & _ & Ht).
  assert (Hall : ∀ rq', send_call rq' ∈ trace_of (run s0) →
            functions.SendMessage.entities rq' = entities).
  { intros rq' Hin. destruct (send_message_trace s0) as (rest & Hrun & Hrest).
    rewrite Hrun in Hin. apply elem_of_cons in Hin as [[=]|Hin].
    rewrite Forall_forall in Hrest. destruct (Hrest _ Hin) as [_ Hrq].
    destruct (Hrq rq' eq_refl) as (_ & _ & sp' & Hp').
    rewrite Hp in Hp'. congruence. }
  exists (short_message c n message entities),
    (request peer0 random_id markup message entities), sp.
  assert (Hin : send_call (request peer0 random_id markup message entities)
                  ∈ trace_of (run s0)).
  { rewrite (run_short_sent _ _ _ _ _ _ Hb), Ht. cbn [trace_of snd].
    rewrite !elem_of_app. left. right. right. apply list_elem_of_here. }
  split; [|split; [exact Hin|split; [exact Hp|split; [reflexivity|split]]]].
  - rewrite (run_short_sent _ _ _ _ _ _ Hb), Hpeer. cbn. rewrite Hn. reflexivity.
  - exact Hall.
  - intros l e st Hl. cbn in Hl. cbn. subst entities. cbn.
    apply lookup_alter_eq.
Qed.

(** *** The batch of updates *)

Lemma dict_by_id_snoc {A} (key : A → Z) (xs : list A) (x : A) :
  dict_by_id key (xs ++ [x]) = <[key x := x]> (dict_by_id key xs).
Proof. unfold dict_by_id. rewrite foldl_app. reflexivity. Qed.


Lemma scan_updates_skip before rest users chats :
  Forall (λ u, is_new_message_update u = false) before →
  scan_updates self (before ++ rest) users chats = scan_updates self rest users chats.
Proof.
  induction 1 as [|u before Hu _ IH]; [reflexivity|].
  cbn [app scan_updates]. rewrite Hu. exact IH.
Qed.




Lemma scan_updates_none updates users chats s :
  Forall (λ u, is_new_message_update u = false) updates →
  scan_updates self updates users chats s = (Return None, s, []).
Proof.
  intros H. rewrite <- (app_nil_r updates).
  rewrite (scan_updates_skip _ _ _ _ H). reflexivity.
Qed.

(** C5. When [send] answers with a batch none of whose updates is an
    [UpdateNewMessage], [UpdateNewChannelMessage] or
    [UpdateNewScheduledMessage], [send_message] returns [None]: it does not
    raise, calls nothing further and leaves the state as [send] left it. *)
Theorem C5_no_new_message_returns_None
    s0 s1 t1 message entities updates users chats :
  build s0 = (Return (message, entities, types.Updates updates users chats), s1, t1) →
  Forall (λ u, is_new_message_update u = false) updates →
  run s0 = (Return None, s1, t1).
Proof.
  intros Hb Hnone. rewrite (run_after_build _ _ _ _ _ _ Hb).
  cbn [resolve_response]. rewrite (scan_updates_none _ _ _ _ Hnone).
  cbn. rewrite app_nil_r. reflexivity.
Qed.

End facts.

(** ** The claims on the demo client *)

Lemma C2_flags_witness :
  send_call (Demo.said None (Some true))
    ∈ trace_of (Demo.say Demo.user_777 Demo.confirmation (Some false) (Some true) Demo.start) ∧
  functions.SendMessage.no_webpage (Demo.said None (Some true)) = None ∧
  functions.SendMessage.silent (Demo.said None (Some true)) = Some true.
Proof.
  assert (Hin : send_call (Demo.said None (Some true))
      ∈ trace_of (Demo.say Demo.user_777 Demo.confirmation (Some false) (Some true) Demo.start)).
  { vm_compute. repeat constructor. }
  split; [exact Hin|].
  pose proof (C2_flags_absent_unless_true
    (Demo.client Demo.user_777 Demo.confirmation) (ChatInt 777) "hi" ModeUnset
    (Some false) (Some true) None None None Demo.start
    (Demo.said None (Some true)) Hin) as (_ & Hsilent & Hpreview & _).
  split.
  - apply Hpreview. discriminate.
  - apply Hsilent. reflexivity.
Defined.

(** One call of the parser, and its output in the request that is sent. *)
Lemma C7_parser_witness :
  List.filter is_parser_parse_call
    (trace_of (Demo.say Demo.user_777 Demo.confirmation None None Demo.start)) =
    [parser_parse_call "hi" ModeUnset] ∧
  (Demo.parse "hi" ModeUnset Demo.start).1 = Return ("hi", Some 1%positive) ∧
  send_call (Demo.said None None)
    ∈ trace_of (Demo.say Demo.user_777 Demo.confirmation None None Demo.start).
Proof.
  destruct (C7_parser_called_once
    (Demo.client Demo.user_777 Demo.confirmation) (ChatInt 777) "hi" ModeUnset
    None None None None None Demo.start) as (Honce & _ & _ & Hsent & _).
  split; [exact Honce|]. split; [reflexivity|].
  exact (Hsent "hi" (Some 1%positive)
    (Demo.parse "hi" ModeUnset Demo.start).2
    (types.InputPeerUser 777 0)
    (State (heap (Demo.parse "hi" ModeUnset Demo.start).2) 1%nat)
    4242
    (State (heap (Demo.parse "hi" ModeUnset Demo.start).2) 1%nat)
    None
    (State (heap (Demo.parse "hi" ModeUnset Demo.start).2) 1%nat)
    []
    eq_refl eq_refl eq_refl eq_refl).
Defined.

(** Scenario B of the spec, and the same send to a basic group. *)
Lemma C3_scenario_B_witness :
  value_of (Demo.say Demo.user_777 Demo.confirmation None None Demo.start) =
    Return (Some (pyrogram.Message.Make 42
      (Some (pyrogram.Chat.Make 777 "private")) (Some "hi") (Some 1000)
      (Some true) (Some 1%positive))) ∧
  value_of (Demo.say Demo.group_5 Demo.confirmation None None Demo.start) =
    Return (Some (pyrogram.Message.Make 42
      (Some (pyrogram.Chat.Make (-5) "private")) (Some "hi") (Some 1000)
      (Some true) (Some 1%positive))).
Proof.
  split.
  - refine (proj1 (C3_short_sent_message
      (Demo.client Demo.user_777 Demo.confirmation) (ChatInt 777) "hi" ModeUnset
      None None None None None Demo.start
      (state_of (build_and_send (Demo.client Demo.user_777 Demo.confirmation)
         (ChatInt 777) "hi" ModeUnset None None None None None Demo.start))
      (trace_of (build_and_send (Demo.client Demo.user_777 Demo.confirmation)
         (ChatInt 777) "hi" ModeUnset None None None None None Demo.start))
      "hi" (Some 1%positive) (types.UpdateShortSentMessage.Make 42 1000 (Some true))
      (types.InputPeerUser 777 0) _ _ _) _ 777 _); reflexivity.
  - refine (proj2 (C3_short_sent_message
      (Demo.client Demo.group_5 Demo.confirmation) (ChatInt 777) "hi" ModeUnset
      None None None None None Demo.start
      (state_of (build_and_send (Demo.client Demo.group_5 Demo.confirmation)
         (ChatInt 777) "hi" ModeUnset None None None None None Demo.start))
      (trace_of (build_and_send (Demo.client Demo.group_5 Demo.confirmation)
         (ChatInt 777) "hi" ModeUnset None None None None None Demo.start))
      "hi" (Some 1%positive) (types.UpdateShortSentMessage.Make 42 1000 (Some true))
      (types.InputPeerChat 5) _ _ _) _ 5 _); reflexivity.
Defined.

(** Claim C3 as the spec states it fails: the response is a short
    confirmation, the peer is a channel, and no [Message] is returned. *)
Lemma C3_channel_peer_counterexample :
  ¬ (∀ s1 t1 message entities c,
       build_and_send (Demo.client Demo.channel_9 Demo.confirmation)
         (ChatInt 777) "hi" ModeUnset None None None None None Demo.start =
         (Return (message, entities, types.ShortSent c), s1, t1) →
       ∃ m,
         value_of
           (send_message (Demo.client Demo.channel_9 Demo.confirmation)
              (ChatInt 777) "hi" ModeUnset None None None None None Demo.start) =
           Return (Some m)).
Proof.
  intros H.
  destruct (H _ _ _ _ _ eq_refl) as [m Hm].
  vm_compute in Hm. discriminate Hm.
Qed.

(** A channel peer has no [chat_id]: line 141 raises. *)
Example short_sent_to_channel_raises :
  value_of (Demo.say Demo.channel_9 Demo.confirmation None None Demo.start) =
    Raise (AttributeError "InputPeerChannel" "chat_id").
Proof. reflexivity. Qed.

Lemma C6_text_and_entities_witness :
  ∃ m,
    value_of (Demo.say Demo.user_777 Demo.confirmation None None Demo.start) =
      Return (Some m) ∧
    (Demo.parse "hi" ModeUnset Demo.start).1 = Return ("hi", Some 1%positive) ∧
    pyrogram.Message.text m = Some "hi" ∧
    pyrogram.Message.entities m = Some 1%positive.
Proof.
  destruct (C6_text_and_entities_from_parser
    (Demo.client Demo.user_777 Demo.confirmation) (ChatInt 777) "hi" ModeUnset
    None None None None None Demo.start
    (state_of (build_and_send (Demo.client Demo.user_777 Demo.confirmation)
       (ChatInt 777) "hi" ModeUnset None None None None None Demo.start))
    (trace_of (build_and_send (Demo.client Demo.user_777 Demo.confirmation)
       (ChatInt 777) "hi" ModeUnset None None None None None Demo.start))
    "hi" (Some 1%positive) (types.UpdateShortSentMessage.Make 42 1000 (Some true))
    (types.InputPeerUser 777 0) _ 777 eq_refl eq_refl eq_refl)
    as (m & sp & Hm & Hp & Htext & Hentities).
  exists m. split; [exact Hm|]. split; [reflexivity|]. split; assumption.
Defined.

(** The resolver that moves: the request is addressed to user 777, the
    returned chat is 778, the answer of the second call. *)
Lemma C10_resolve_peer_witness :
  List.filter is_resolve_peer_call
    (trace_of (Demo.say Demo.moving Demo.confirmation None None Demo.start)) =
    [resolve_peer_call (ChatInt 777); resolve_peer_call (ChatInt 777)] ∧
  send_call (Demo.said None None)
    ∈ trace_of (Demo.say Demo.moving Demo.confirmation None None Demo.start) ∧
  value_of (Demo.say Demo.moving Demo.confirmation None None Demo.start) =
    Return (Some (pyrogram.Message.Make 42
      (Some (pyrogram.Chat.Make 778 "private")) (Some "hi") (Some 1000)
      (Some true) (Some 1%positive))).
Proof.
  destruct (C10_resolve_peer_called_again
    (Demo.client Demo.moving Demo.confirmation) (ChatInt 777) "hi" ModeUnset
    None None None None None Demo.start
    (state_of (build_and_send (Demo.client Demo.moving Demo.confirmation)
       (ChatInt 777) "hi" ModeUnset None None None None None Demo.start))
    (trace_of (build_and_send (Demo.client Demo.moving Demo.confirmation)
       (ChatInt 777) "hi" ModeUnset None None None None None Demo.start))
    "hi" (Some 1%positive) (types.UpdateShortSentMessage.Make 42 1000 (Some true))
    eq_refl) as (Hcalls & _ & _ & Hvalue).
  split; [exact Hcalls|]. split.
  - vm_compute. repeat constructor.
  - unfold Demo.say. rewrite Hvalue. reflexivity.
Defined.


(** Scenario C of the spec. *)
Lemma C5_side_effects_only_witness :
  value_of (Demo.say Demo.user_777 Demo.side_effects_only None None Demo.start) =
    Return None.
Proof.
  unfold Demo.say.
  rewrite (C5_no_new_message_returns_None
    (Demo.client Demo.user_777 Demo.side_effects_only) (ChatInt 777) "hi" ModeUnset
    None None None None None Demo.start
    (state_of (build_and_send (Demo.client Demo.user_777 Demo.side_effects_only)
       (ChatInt 777) "hi" ModeUnset None None None None None Demo.start))
    (trace_of (build_and_send (Demo.client Demo.user_777 Demo.side_effects_only)
       (ChatInt 777) "hi" ModeUnset None None None None None Demo.start))
    "hi" (Some 1%positive)
    [types.UpdateOther (Py.Object "UpdateReadHistoryOutbox" ∅);
     types.UpdateOther (Py.Object "UpdateMessageID" ∅)]
    [Demo.alice] []
    eq_refl
    ltac:(repeat constructor)).
  reflexivity.
Defined.

(** Claim C8 as the spec states it fails: on the demo client the returned
    [Message] and the request sent hold the same address, 1. *)
Lemma C8_entities_aliased_counterexample :
  ¬ (∀ (m : pyrogram.Message.t) (rq : functions.SendMessage.t) (l : loc),
       value_of (Demo.say Demo.user_777 Demo.confirmation None None Demo.start) =
         Return (Some m) →
       send_call rq
         ∈ trace_of (Demo.say Demo.user_777 Demo.confirmation None None Demo.start) →
       pyrogram.Message.entities m = Some l →
       functions.SendMessage.entities rq ≠ Some l).
Proof.
  intros H.
  refine (H (pyrogram.Message.Make 42 (Some (pyrogram.Chat.Make 777 "private"))
               (Some "hi") (Some 1000) (Some true) (Some 1%positive))
            (Demo.said None None) 1%positive _ _ _ _); try reflexivity.
  vm_compute. repeat constructor.
Qed.

Lemma C8_entities_shared_witness :
  ∃ m rq,
    value_of (Demo.say Demo.user_777 Demo.confirmation None None Demo.start) =
      Return (Some m) ∧
    send_call rq
      ∈ trace_of (Demo.say Demo.user_777 Demo.confirmation None None Demo.start) ∧
    pyrogram.Message.entities m = Some 1%positive ∧
    functions.SendMessage.entities rq = Some 1%positive.
Proof.
  destruct (C8_entities_shared_with_request
    (Demo.client Demo.user_777 Demo.confirmation) (ChatInt 777) "hi" ModeUnset
    None None None None None Demo.start
    (state_of (build_and_send (Demo.client Demo.user_777 Demo.confirmation)
       (ChatInt 777) "hi" ModeUnset None None None None None Demo.start))
    (trace_of (build_and_send (Demo.client Demo.user_777 Demo.confirmation)
       (ChatInt 777) "hi" ModeUnset None None None None None Demo.start))
    "hi" (Some 1%positive) (types.UpdateShortSentMessage.Make 42 1000 (Some true))
    (types.InputPeerUser 777 0) _ 777 eq_refl eq_refl eq_refl)
    as (m & rq & sp & Hm & Hin & _ & Hentities & Hall & _).
  exists m, rq. split; [exact Hm|]. split; [exact Hin|]. split; [exact Hentities|].
  rewrite (Hall rq Hin). exact Hentities.
Defined.

(** * Further properties *)

(** ** chat_permissions.py *)

Lemma not_injective (a b : Py.flag) :
  Py.not_ a = Py.not_ b ↔ Py.truthy a = Py.truthy b.
Proof.
  unfold Py.not_. destruct (Py.truthy a), (Py.truthy b); simpl; split; congruence.
Qed.

Lemma other_messages_nand (d : ChatBannedRights) :
  can_send_other_messages (permissions_of d) =
    Some (negb (Py.truthy (send_stickers d) && Py.truthy (send_gifs d) &&
                Py.truthy (send_games d) && Py.truthy (send_inline d))).
Proof.
  simpl. unfold Py.or_, Py.not_.
  destruct (Py.truthy (send_stickers d)), (Py.truthy (send_gifs d)),
    (Py.truthy (send_games d)), (Py.truthy (send_inline d)); reflexivity.
Qed.

(** Whatever [_parse] returns has all eight flags set to [True] or
    [False]: the unset state of a [ChatPermissions] field never comes out
    of the translation. *)
Theorem parse_leaves_no_flag_unset (a : denied_arg) (p : ChatPermissions) :
  _parse a = Some p →
  is_Some (can_send_messages p) ∧ is_Some (can_send_media_messages p) ∧
  is_Some (can_send_other_messages p) ∧ is_Some (can_add_web_page_previews p) ∧
  is_Some (can_send_polls p) ∧ is_Some (can_change_info p) ∧
  is_Some (can_invite_users p) ∧ is_Some (can_pin_messages p).
Proof.
  destruct a as [d| |o]; simpl; intros [= <-]. simpl. repeat split; eauto.
Qed.

Lemma parse_leaves_no_flag_unset_witness :
  _parse (IsChatBannedRights nothing_set) = Some all_allowed ∧
  is_Some (can_send_other_messages all_allowed).
Proof.
  split; [reflexivity|].
  exact (proj1 (proj2 (proj2
    (parse_leaves_no_flag_unset (IsChatBannedRights nothing_set) all_allowed eq_refl)))).
Defined.

(** Two denial records translate to the same permissions exactly when
    they agree, up to truth value, on the seven flags that are negated one
    to one and on whether all four of stickers, gifs, games and inline are
    denied. So [None] and [False] are interchangeable, and which of the
    four is left allowed is lost. *)
Theorem parse_equal_iff (d1 d2 : ChatBannedRights) :
  _parse (IsChatBannedRights d1) = _parse (IsChatBannedRights d2) ↔
  Py.truthy (send_messages d1) = Py.truthy (send_messages d2) ∧
  Py.truthy (send_media d1) = Py.truthy (send_media d2) ∧
  Py.truthy (embed_links d1) = Py.truthy (embed_links d2) ∧
  Py.truthy (send_polls d1) = Py.truthy (send_polls d2) ∧
  Py.truthy (change_info d1) = Py.truthy (change_info d2) ∧
  Py.truthy (invite_users d1) = Py.truthy (invite_users d2) ∧
  Py.truthy (pin_messages d1) = Py.truthy (pin_messages d2) ∧
  (Py.truthy (send_stickers d1) && Py.truthy (send_gifs d1) &&
   Py.truthy (send_games d1) && Py.truthy (send_inline d1)) =
  (Py.truthy (send_stickers d2) && Py.truthy (send_gifs d2) &&
   Py.truthy (send_games d2) && Py.truthy (send_inline d2)).
Proof.
  split.
  - intros H0.
    assert (H : permissions_of d1 = permissions_of d2) by (simpl in H0; congruence).
    clear H0.
    pose proof (f_equal can_send_messages H) as H1.
    pose proof (f_equal can_send_media_messages H) as H2.
    pose proof (f_equal can_send_other_messages H) as H3.
    pose proof (f_equal can_add_web_page_previews H) as H4.
    pose proof (f_equal can_send_polls H) as H5.
    pose proof (f_equal can_change_info H) as H6.
    pose proof (f_equal can_invite_users H) as H7.
    pose proof (f_equal can_pin_messages H) as H8.
    rewrite !other_messages_nand in H3.
    simpl in H1, H2, H4, H5, H6, H7, H8.
    injection H1 as H1. injection H2 as H2. injection H3 as H3.
    injection H4 as H4. injection H5 as H5. injection H6 as H6.
    injection H7 as H7. injection H8 as H8.
    rewrite not_injective in H1, H2, H4, H5, H6, H7, H8.
    apply (f_equal negb) in H3. rewrite !Bool.negb_involutive in H3. auto 10.
  - intros (H1 & H2 & H4 & H5 & H6 & H7 & H8 & H3).
    simpl. f_equal.
    pose proof (other_messages_nand d1) as E1.
    pose proof (other_messages_nand d2) as E2.
    simpl in E1, E2.
    unfold permissions_of. rewrite E1, E2, H3.
    unfold Py.not_. rewrite H1, H2, H4, H5, H6, H7, H8. reflexivity.
Qed.

Lemma not_antitone (a b : Py.flag) :
  (Py.truthy a = true → Py.truthy b = true) →
  Py.not_ b = true → Py.not_ a = true.
Proof.
  unfold Py.not_. destruct (Py.truthy a), (Py.truthy b); simpl; intuition congruence.
Qed.

(** Denying more never allows more: when every flag denied by [d1] is
    denied by [d2], every permission granted from [d2] is granted from
    [d1]. *)
Theorem denying_more_allows_no_more (d1 d2 : ChatBannedRights) :
  (Py.truthy (send_messages d1) = true → Py.truthy (send_messages d2) = true) ∧
  (Py.truthy (send_media d1) = true → Py.truthy (send_media d2) = true) ∧
  (Py.truthy (send_stickers d1) = true → Py.truthy (send_stickers d2) = true) ∧
  (Py.truthy (send_gifs d1) = true → Py.truthy (send_gifs d2) = true) ∧
  (Py.truthy (send_games d1) = true → Py.truthy (send_games d2) = true) ∧
  (Py.truthy (send_inline d1) = true → Py.truthy (send_inline d2) = true) ∧
  (Py.truthy (embed_links d1) = true → Py.truthy (embed_links d2) = true) ∧
  (Py.truthy (send_polls d1) = true → Py.truthy (send_polls d2) = true) ∧
  (Py.truthy (change_info d1) = true → Py.truthy (change_info d2) = true) ∧
  (Py.truthy (invite_users d1) = true → Py.truthy (invite_users d2) = true) ∧
  (Py.truthy (pin_messages d1) = true → Py.truthy (pin_messages d2) = true) →
  ∃ p1 p2,
    _parse (IsChatBannedRights d1) = Some p1 ∧
    _parse (IsChatBannedRights d2) = Some p2 ∧
    (can_send_messages p2 = Some true → can_send_messages p1 = Some true) ∧
    (can_send_media_messages p2 = Some true → can_send_media_messages p1 = Some true) ∧
    (can_send_other_messages p2 = Some true → can_send_other_messages p1 = Some true) ∧
    (can_add_web_page_previews p2 = Some true → can_add_web_page_previews p1 = Some true) ∧
    (can_send_polls p2 = Some true → can_send_polls p1 = Some true) ∧
    (can_change_info p2 = Some true → can_change_info p1 = Some true) ∧
    (can_invite_users p2 = Some true → can_invite_users p1 = Some true) ∧
    (can_pin_messages p2 = Some true → can_pin_messages p1 = Some true).
Proof.
  intros (Hm & Hmedia & Hs & Hg & Hga & Hi & He & Hp & Hc & Hu & Hpin).
  exists (permissions_of d1), (permissions_of d2).
  split; [reflexivity|]. split; [reflexivity|].
  assert (Hflag : ∀ a b : Py.flag,
            (Py.truthy a = true → Py.truthy b = true) →
            Some (Py.not_ b) = Some true → Some (Py.not_ a) = Some true).
  { intros a b Hab [= Hb]. f_equal. exact (not_antitone a b Hab Hb). }
  split; [apply Hflag, Hm|]. split; [apply Hflag, Hmedia|].
  split.
  { rewrite !other_messages_allowed.
    intros [H|[H|[H|H]]]; [left|right; left|right; right; left|right; right; right].
    - destruct (Py.truthy (send_stickers d1)); [rewrite Hs in H|]; congruence.
    - destruct (Py.truthy (send_gifs d1)); [rewrite Hg in H|]; congruence.
    - destruct (Py.truthy (send_games d1)); [rewrite Hga in H|]; congruence.
    - destruct (Py.truthy (send_inline d1)); [rewrite Hi in H|]; congruence. }
  split; [apply Hflag, He|]. split; [apply Hflag, Hp|].
  split; [apply Hflag, Hc|]. split; [apply Hflag, Hu|apply Hflag, Hpin].
Qed.

(** Denying everything but inline use still allows other messages, and
    so does denying stickers alone. *)
Lemma denying_more_witness :
  can_send_other_messages
    (permissions_of
       {| send_messages := Some true; send_media := Some true;
          send_stickers := Some true; send_gifs := Some true;
          send_games := Some true; send_inline := None;
          embed_links := Some true; send_polls := Some true;
          change_info := Some true; invite_users := Some true;
          pin_messages := Some true |}) = Some true ∧
  can_send_other_messages
    (permissions_of
       {| send_messages := None; send_media := None;
          send_stickers := Some true; send_gifs := Some false;
          send_games := None; send_inline := None;
          embed_links := None; send_polls := None;
          change_info := None; invite_users := None;
          pin_messages := None |}) = Some true.
Proof.
  destruct (denying_more_allows_no_more
    {| send_messages := None; send_media := None;
       send_stickers := Some true; send_gifs := Some false;
       send_games := None; send_inline := None;
       embed_links := None; send_polls := None;
       change_info := None; invite_users := None;
       pin_messages := None |}
    {| send_messages := Some true; send_media := Some true;
       send_stickers := Some true; send_gifs := Some true;
       send_games := Some true; send_inline := None;
       embed_links := Some true; send_polls := Some true;
       change_info := Some true; invite_users := Some true;
       pin_messages := Some true |})
    as (p1 & p2 & E1 & E2 & _ & _ & Hother & _).
  { simpl. repeat split; intros H; try discriminate H; reflexivity. }
  injection E1 as <-. injection E2 as <-.
  split; [reflexivity|]. apply Hother. reflexivity.
Defined.

(** Every combination of eight set flags is the translation of some denial
    record: the translation enforces none of the implications between
    permissions that the class docstring describes. *)
Theorem every_set_permissions_is_parsed (p : ChatPermissions) :
  is_Some (can_send_messages p) ∧ is_Some (can_send_media_messages p) ∧
  is_Some (can_send_other_messages p) ∧ is_Some (can_add_web_page_previews p) ∧
  is_Some (can_send_polls p) ∧ is_Some (can_change_info p) ∧
  is_Some (can_invite_users p) ∧ is_Some (can_pin_messages p) →
  ∃ d, _parse (IsChatBannedRights d) = Some p.
Proof.
  destruct p as [m media other web polls info invite pin]. simpl.
  intros ([b1 ->] & [b2 ->] & [b3 ->] & [b4 ->] & [b5 ->] & [b6 ->] & [b7 ->] & [b8 ->]).
  exists {| send_messages := Some (negb b1); send_media := Some (negb b2);
            send_stickers := Some (negb b3); send_gifs := Some true;
            send_games := Some true; send_inline := Some true;
            embed_links := Some (negb b4); send_polls := Some (negb b5);
            change_info := Some (negb b6); invite_users := Some (negb b7);
            pin_messages := Some (negb b8) |}.
  simpl. unfold permissions_of, Py.not_, Py.or_. simpl.
  rewrite !Bool.negb_involutive. destruct b3; reflexivity.
Qed.

(** Other messages allowed although media messages are not: the docstring
    says the first implies the second. *)
Lemma every_set_permissions_witness :
  ∃ d, _parse (IsChatBannedRights d) =
         Some {| can_send_messages := Some true;
                 can_send_media_messages := Some false;
                 can_send_other_messages := Some true;
                 can_add_web_page_previews := Some false;
                 can_send_polls := Some true;
                 can_change_info := Some false;
                 can_invite_users := Some true;
                 can_pin_messages := Some false |}.
Proof.
  apply every_set_permissions_is_parsed. simpl. repeat split; eauto.
Defined.

(** ** send_message.py: failures and the order of calls *)

Section more_facts.
Context {X : Type} (self : Client X).
Variables (chat_id : chat_ident) (text : string) (parse_mode : parse_mode_arg).
Variables (disable_web_page_preview disable_notification : Py.flag).
Variables (reply_to_message_id schedule_date : option Z).
Variable (reply_markup : option Py.object).

Abbreviation build := (build_and_send self chat_id text parse_mode
  disable_web_page_preview disable_notification
  reply_to_message_id schedule_date reply_markup).

Abbreviation run := (send_message self chat_id text parse_mode
  disable_web_page_preview disable_notification
  reply_to_message_id schedule_date reply_markup).

Abbreviation request peer random_id markup message entities :=
  (functions.SendMessage.Make peer
     (Py.or_None disable_web_page_preview) (Py.or_None disable_notification)
     reply_to_message_id random_id schedule_date markup message entities).

(** The calls of [reply_markup.write] a run makes when it gets that far. *)
Abbreviation writes :=
  (match reply_markup with
   | Some k => [write_call k]
   | None => []
   end).

Abbreviation opening :=
  ([parser_parse_call text parse_mode; resolve_peer_call chat_id; rnd_id_call]).

Lemma write_markup_cases s :
  write_markup self reply_markup s =
    match reply_markup with
    | None => (Return None, s, [])
    | Some k =>
        match reply_markup_write self k s with
        | (Return w, s1) => (Return (Some w), s1, [write_call k])
        | (Raise e, s1) => (Raise e, s1, [write_call k])
        end
    end.
Proof.
  unfold write_markup, bind, invoke, ret.
  destruct reply_markup as [k|]; [|reflexivity].
  destruct (reply_markup_write self k s) as [[w|e] s1]; reflexivity.
Qed.

Lemma build_cases s :
  build s =
    match parser_parse self text parse_mode s with
    | (Raise e, sp) => (Raise e, sp, [parser_parse_call text parse_mode])
    | (Return (message, entities), sp) =>
      match resolve_peer self chat_id sp with
      | (Raise e, s2) =>
          (Raise e, s2, [parser_parse_call text parse_mode; resolve_peer_call chat_id])
      | (Return peer, s2) =>
        match rnd_id self s2 with
        | (Raise e, s3) => (Raise e, s3, opening)
        | (Return random_id, s3) =>
          match write_markup self reply_markup s3 with
          | (Raise e, s4, tw) => (Raise e, s4, opening ++ tw)
          | (Return markup, s4, tw) =>
            match send self (request peer random_id markup message entities) s4 with
            | (Raise e, s5) =>
                (Raise e, s5,
                 opening ++ tw ++ [send_call (request peer random_id markup message entities)])
            | (Return r, s5) =>
                (Return (message, entities, r), s5,
                 opening ++ tw ++ [send_call (request peer random_id markup message entities)])
            end
          end
        end
      end
    end.
Proof.
  unfold build_and_send, bind, invoke, ret.
  destruct (parser_parse self text parse_mode s) as [[[message entities]|e] sp];
    [|reflexivity].
  destruct (resolve_peer self chat_id sp) as [[peer|e] s2]; [|reflexivity].
  destruct (rnd_id self s2) as [[random_id|e] s3]; [|reflexivity].
  destruct (write_markup self reply_markup s3) as [[[markup|e] s4] tw]; [|reflexivity].
  destruct (send self _ s4) as [[r|e] s5]; simpl; rewrite ?app_nil_r; reflexivity.
Qed.

Lemma run_Raise_in_build s0 e s1 t1 :
  build s0 = (Raise e, s1, t1) → run s0 = (Raise e, s1, t1).
Proof. intros H. unfold send_message. exact (bind_Raise _ _ _ _ _ _ H). Qed.

(** When the parser raises, [send_message] raises the same exception
    having called nothing else: no peer is resolved, no random id drawn,
    nothing sent. *)
Theorem parser_failure_stops_everything s e sp :
  parser_parse self text parse_mode s = (Raise e, sp) →
  send_message self chat_id text parse_mode
    disable_web_page_preview disable_notification
    reply_to_message_id schedule_date reply_markup s =
    (Raise e, sp, [parser_parse_call text parse_mode]).
Proof.
  intros H. apply run_Raise_in_build. rewrite build_cases, H. reflexivity.
Qed.

(** When the first [resolve_peer] raises, [send_message] raises the same
    exception and nothing is sent: no random id is drawn, the keyboard is
    not written, [send] is not called. *)
Theorem unresolved_peer_sends_nothing s message entities sp e s2 :
  parser_parse self text parse_mode s = (Return (message, entities), sp) →
  resolve_peer self chat_id sp = (Raise e, s2) →
  send_message self chat_id text parse_mode
    disable_web_page_preview disable_notification
    reply_to_message_id schedule_date reply_markup s =
    (Raise e, s2,
     [parser_parse_call text parse_mode; resolve_peer_call chat_id]).
Proof.
  intros Hp Hr. apply run_Raise_in_build. rewrite build_cases, Hp, Hr. reflexivity.
Qed.

(** When [send] raises, [send_message] raises the same exception, in the
    state [send] left, and calls nothing after it: neither [resolve_peer]
    again nor [Message._parse]. *)
Theorem send_failure_is_propagated
    s message entities sp peer s2 random_id s3 markup s4 tw e s5 :
  parser_parse self text parse_mode s = (Return (message, entities), sp) →
  resolve_peer self chat_id sp = (Return peer, s2) →
  rnd_id self s2 = (Return random_id, s3) →
  write_markup self reply_markup s3 = (Return markup, s4, tw) →
  send self (request peer random_id markup message entities) s4 = (Raise e, s5) →
  run s =
    (Raise e, s5,
     opening ++ tw ++ [send_call (request peer random_id markup message entities)]).
Proof.
  intros Hp Hr Hi Hw Hs. apply run_Raise_in_build.
  rewrite build_cases, Hp, Hr, Hi, Hw, Hs. reflexivity.
Qed.

Lemma build_sent s0 s1 t1 message entities r :
  build s0 = (Return (message, entities, r), s1, t1) →
  ∃ rq, last t1 = Some (send_call rq).
Proof.
  intros H.
  destruct (build_and_send_Return _ _ _ _ _ _ _ _ _ _ _ _ _ _ _ H)
    as (sp & peer & s2 & random_id & s3 & markup & s4 & tw & _ & _ & _ & _ & _ & ->).
  eexists. rewrite !app_assoc. apply last_snoc.
Qed.

(** After a short confirmation, a second [resolve_peer] that raises makes
    [send_message] raise the same exception, although the request has
    been sent and confirmed: [send] is the last call before it. *)
Theorem confirmed_but_peer_unresolved s0 s1 t1 message entities c e s2 :
  build s0 = (Return (message, entities, types.ShortSent c), s1, t1) →
  resolve_peer self chat_id s1 = (Raise e, s2) →
  send_message self chat_id text parse_mode
    disable_web_page_preview disable_notification
    reply_to_message_id schedule_date reply_markup s0 =
    (Raise e, s2, t1 ++ [resolve_peer_call chat_id]) ∧
  ∃ rq, last t1 = Some (send_call rq).
Proof.
  intros Hb Hr. split; [|exact (build_sent _ _ _ _ _ _ Hb)].
  rewrite (run_short_sent _ _ _ _ _ _ _ _ _ _ _ _ _ _ _ Hb), Hr. reflexivity.
Qed.

(** After a short confirmation, a peer that is no [InputPeerUser] and has
    no [chat_id] (a channel, the [self] peer) makes line 141 raise
    [AttributeError]: the message has been sent and confirmed, and the
    caller gets no [Message]. *)
Theorem confirmed_but_peer_has_no_chat_id s0 s1 t1 message entities c peer s2 :
  build s0 = (Return (message, entities, types.ShortSent c), s1, t1) →
  resolve_peer self chat_id s1 = (Return peer, s2) →
  Py.isinstance peer "InputPeerUser" = false →
  Py.attrs peer !! "chat_id" = None →
  run s0 =
    (Raise (AttributeError (Py.class_of peer) "chat_id"), s2,
     t1 ++ [resolve_peer_call chat_id]) ∧
  ∃ rq, last t1 = Some (send_call rq).
Proof.
  intros Hb Hr Hu Hc. split; [|exact (build_sent _ _ _ _ _ _ Hb)].
  rewrite (run_short_sent _ _ _ _ _ _ _ _ _ _ _ _ _ _ _ Hb), Hr. cbn.
  rewrite (peer_id_of_no_chat_id _ Hu Hc). reflexivity.
Qed.

(** A response that is no [UpdateShortSentMessage] and has no [updates]
    makes line 158 raise [AttributeError]; the method does not return
    [None] for it, and calls nothing after [send]. *)
Theorem unexpected_response_raises s0 s1 t1 message entities o :
  build s0 = (Return (message, entities, types.OtherResponse o), s1, t1) →
  send_message self chat_id text parse_mode
    disable_web_page_preview disable_notification
    reply_to_message_id schedule_date reply_markup s0 =
    (Raise (AttributeError (Py.class_of o) "updates"), s1, t1).
Proof.
  intros Hb. rewrite (run_after_build _ _ _ _ _ _ _ _ _ _ _ _ _ _ _ Hb).
  cbn. rewrite app_nil_r. reflexivity.
Qed.

(** *** The order and the number of calls *)

Lemma scan_updates_trace_shape updates users chats s :
  trace_of (scan_updates self updates users chats s) = [] ∨
  ∃ m us cs b,
    trace_of (scan_updates self updates users chats s) = [Message_parse_call m us cs b].
Proof.
  induction updates as [|i rest IH]; cbn [scan_updates]; [left; reflexivity|].
  destruct (is_new_message_update i); [|exact IH].
  unfold bind, lift, invoke, ret.
  destruct (update_message i) as [m|e]; [|left; reflexivity].
  right. exists m, (dict_by_id types.User.id users), (dict_by_id types.Chat.id chats),
    (is_UpdateNewScheduledMessage i).
  destruct (Message_parse self m _ _ _ s) as [[parsed|e] s1]; reflexivity.
Qed.

Lemma resolve_response_trace_shape message entities r s :
  trace_of (resolve_response self chat_id message entities r s) = [] ∨
  trace_of (resolve_response self chat_id message entities r s) =
    [resolve_peer_call chat_id] ∨
  ∃ m us cs b,
    trace_of (resolve_response self chat_id message entities r s) =
      [Message_parse_call m us cs b].
Proof.
  destruct r as [c|updates users chats|o].
  - right. left. rewrite resolve_short_sent. reflexivity.
  - cbn [resolve_response].
    destruct (scan_updates_trace_shape updates users chats s) as [H|H]; auto.
  - left. reflexivity.
Qed.

Lemma write_markup_trace_Return s markup s1 tw :
  write_markup self reply_markup s = (Return markup, s1, tw) → tw = writes.
Proof.
  rewrite write_markup_cases. destruct reply_markup as [k|].
  - destruct (reply_markup_write self k s) as [[w|e] s']; [|discriminate].
    intros [= _ _ <-]. reflexivity.
  - intros [= _ _ <-]. reflexivity.
Qed.

Lemma build_trace_Return s0 s1 t1 message entities r :
  build s0 = (Return (message, entities, r), s1, t1) →
  ∃ rq, t1 = opening ++ writes ++ [send_call rq].
Proof.
  intros H.
  destruct (build_and_send_Return _ _ _ _ _ _ _ _ _ _ _ _ _ _ _ H)
    as (sp & peer & s2 & random_id & s3 & markup & s4 & tw & _ & _ & _ & Hw & _ & ->).
  rewrite (write_markup_trace_Return _ _ _ _ Hw). eauto.
Qed.

Lemma build_trace_Raise s e s1 t1 (rq : functions.SendMessage.t) :
  build s = (Raise e, s1, t1) →
  ∃ rq, t1 `prefix_of` (opening ++ writes ++ [send_call rq]).
Proof.
  rewrite build_cases.
  destruct (parser_parse self text parse_mode s) as [[[message entities]|e0] sp].
  2:{ intros [= _ _ <-]. exists rq. eexists. cbn. reflexivity. }
  destruct (resolve_peer self chat_id sp) as [[peer|e0] s2].
  2:{ intros [= _ _ <-]. exists rq. eexists. cbn. reflexivity. }
  destruct (rnd_id self s2) as [[random_id|e0] s3].
  2:{ intros [= _ _ <-]. exists rq. eexists. cbn. reflexivity. }
  destruct (write_markup self reply_markup s3) as [[[markup|e0] s4] tw] eqn:Hw.
  2:{ intros [= _ _ <-]. exists rq.
      rewrite write_markup_cases in Hw. destruct reply_markup as [k|].
      - destruct (reply_markup_write self k s3) as [[w|e1] s']; [discriminate|].
        injection Hw as _ _ <-. eexists. cbn. reflexivity.
      - discriminate. }
  rewrite (write_markup_trace_Return _ _ _ _ Hw).
  destruct (send self _ s4) as [[r|e0] s5]; [discriminate|].
  intros [= _ _ <-]. eexists. exists []. rewrite app_nil_r. reflexivity.
Qed.

Lemma run_trace_prefix s :
  ∃ rq closing,
    trace_of (run s) `prefix_of` (opening ++ writes ++ [send_call rq] ++ closing) ∧
    (closing = [] ∨ closing = [resolve_peer_call chat_id] ∨
     ∃ m us cs b, closing = [Message_parse_call m us cs b]).
Proof.
  pose (nobody := request (Py.Object "" ∅) 0 None "" None).
  destruct (build s) as [[[[[message entities] r]|e] s1] t1] eqn:Hb.
  - destruct (build_trace_Return _ _ _ _ _ _ Hb) as [rq ->].
    rewrite (run_after_build _ _ _ _ _ _ _ _ _ _ _ _ _ _ _ Hb).
    exists rq, (trace_of (resolve_response self chat_id message entities r s1)).
    split; [|apply resolve_response_trace_shape].
    exists []. cbn [trace_of snd]. rewrite app_nil_r, <- !app_assoc. reflexivity.
  - destruct (build_trace_Raise _ _ _ _ nobody Hb) as [rq [k Hk]].
    rewrite (run_Raise_in_build _ _ _ _ Hb).
    exists rq, []. split; [|auto].
    exists k. exact Hk.
Qed.

(** In every run the calls come in one order, none repeated or passed
    over: the parser, [resolve_peer], [rnd_id], [reply_markup.write] when
    a keyboard is given, [send], and then at most one more call, either
    [resolve_peer] again or [Message._parse]. A run that raises stops
    somewhere along this sequence; a run that returns has gone through the
    whole of it. *)
Theorem calls_come_in_order s :
  ∃ rq closing,
    trace_of (run s) `prefix_of` (opening ++ writes ++ [send_call rq] ++ closing) ∧
    (closing = [] ∨ closing = [resolve_peer_call chat_id] ∨
     ∃ m us cs b, closing = [Message_parse_call m us cs b]) ∧
    (∀ v, value_of (run s) = Return v →
       trace_of (run s) = opening ++ writes ++ [send_call rq] ++ closing).
Proof.
  pose (nobody := request (Py.Object "" ∅) 0 None "" None).
  destruct (build s) as [[[[[message entities] r]|e] s1] t1] eqn:Hb.
  - destruct (build_trace_Return _ _ _ _ _ _ Hb) as [rq ->].
    rewrite (run_after_build _ _ _ _ _ _ _ _ _ _ _ _ _ _ _ Hb).
    exists rq, (trace_of (resolve_response self chat_id message entities r s1)).
    assert (Hall : ∀ A (v : result A) (s' : state X) t,
              trace_of (v, s', (opening ++ writes ++ [send_call rq]) ++ t) =
              opening ++ writes ++ [send_call rq] ++ t).
    { intros A v s' t. cbn [trace_of snd]. rewrite <- !app_assoc. reflexivity. }
    rewrite Hall. split; [exists []; rewrite app_nil_r; reflexivity|].
    split; [apply resolve_response_trace_shape|reflexivity].
  - destruct (build_trace_Raise _ _ _ _ nobody Hb) as [rq [k Hk]].
    rewrite (run_Raise_in_build _ _ _ _ Hb).
    exists rq, []. split; [exists k; exact Hk|].
    split; [auto|]. intros v Hv. discriminate Hv.
Qed.

Lemma filter_prefix_length (f : call → bool) (l1 l2 : list call) :
  l1 `prefix_of` l2 →
  (length (List.filter f l1) ≤ length (List.filter f l2))%nat.
Proof. intros [k ->]. rewrite List.filter_app, length_app. lia. Qed.

(** No run sends twice: [send], [rnd_id], [reply_markup.write] and
    [Message._parse] are each called at most once, and [resolve_peer] at
    most twice, whatever the collaborators answer. *)
Theorem nothing_is_retried s :
  (length (List.filter is_send_call (trace_of (run s))) ≤ 1)%nat ∧
  (length (List.filter is_rnd_id_call (trace_of (run s))) ≤ 1)%nat ∧
  (length (List.filter is_write_call (trace_of (run s))) ≤ 1)%nat ∧
  (length (List.filter is_Message_parse_call (trace_of (run s))) ≤ 1)%nat ∧
  (length (List.filter is_resolve_peer_call (trace_of (run s))) ≤ 2)%nat.
Proof.
  destruct (run_trace_prefix s) as (rq & closing & Hp & Hc).
  repeat split.
  all: eapply Nat.le_trans; [apply filter_prefix_length, Hp|].
  all: rewrite !List.filter_app, !length_app.
  all: destruct reply_markup as [k|];
    destruct Hc as [->|[->|(m & us & cs & b & ->)]]; simpl; lia.
Qed.

(** *** Where the request comes from *)

Lemma sent_in_build s rq :
  send_call rq ∈ trace_of (run s) → send_call rq ∈ trace_of (build s).
Proof.
  unfold send_message. rewrite bind_trace, elem_of_app. intros [H|H]; [exact H|].
  destruct (value_of (build s)) as [[[message entities] r]|e].
  - pose proof (resolve_response_trace self chat_id message entities r (state_of (build s)))
      as Hnone.
    rewrite Forall_forall in Hnone. destruct (Hnone _ H) as [_ Hrq].
    destruct (Hrq rq eq_refl).
  - apply elem_of_nil in H as [].
Qed.

(** A request is sent only after the parser, the first [resolve_peer] and
    [rnd_id] have returned, and [reply_markup.write] too when a keyboard
    is given. Its [peer] and [random_id] are what those calls returned,
    [reply_to_msg_id] and [schedule_date] are the caller's, and
    [reply_markup] is the written keyboard, or [None] without one. *)
Theorem sent_request_provenance s rq :
  send_call rq ∈ trace_of (run s) →
  ∃ message entities sp s2 s3,
    parser_parse self text parse_mode s = (Return (message, entities), sp) ∧
    resolve_peer self chat_id sp = (Return (functions.SendMessage.peer rq), s2) ∧
    rnd_id self s2 = (Return (functions.SendMessage.random_id rq), s3) ∧
    functions.SendMessage.reply_to_msg_id rq = reply_to_message_id ∧
    functions.SendMessage.schedule_date rq = schedule_date ∧
    match reply_markup with
    | None => functions.SendMessage.reply_markup rq = None
    | Some k =>
        ∃ w s4, reply_markup_write self k s3 = (Return w, s4) ∧
                functions.SendMessage.reply_markup rq = Some w
    end.
Proof.
  intros H. apply sent_in_build in H. revert H. rewrite build_cases.
  destruct (parser_parse self text parse_mode s) as [[[message entities]|e] sp].
  2:{ cbn. rewrite list_elem_of_singleton. discriminate. }
  destruct (resolve_peer self chat_id sp) as [[peer|e] s2] eqn:Hr.
  2:{ cbn. rewrite !elem_of_cons, elem_of_nil. intros [H|[H|[]]]; discriminate. }
  destruct (rnd_id self s2) as [[random_id|e] s3] eqn:Hi.
  2:{ cbn. rewrite !elem_of_cons, elem_of_nil. intros [H|[H|[H|[]]]]; discriminate. }
  rewrite write_markup_cases.
  destruct reply_markup as [k|].
  - destruct (reply_markup_write self k s3) as [[w|e] s4] eqn:Hw.
    + destruct (send self _ s4) as [[r|e] s5]; cbn;
        rewrite !elem_of_cons, elem_of_nil;
        intros [H|[H|[H|[H|[H|[]]]]]]; try discriminate;
        injection H as ->; exists message, entities, sp, s2, s3; simpl; eauto 10.
    + cbn. rewrite !elem_of_cons, elem_of_nil.
      intros [H|[H|[H|[H|[]]]]]; discriminate.
  - destruct (send self _ s3) as [[r|e] s5]; cbn;
      rewrite !elem_of_cons, elem_of_nil;
      intros [H|[H|[H|[H|[]]]]]; try discriminate;
      injection H as ->; exists message, entities, sp, s2, s3; simpl; eauto 10.
Qed.

End more_facts.

(** ** send_message.py: the dicts of users and chats *)

Lemma dict_by_id_None {A} (key : A → Z) (xs : list A) (k : Z) :
  dict_by_id key xs !! k = None ↔ k ∉ key <$> xs.
Proof.
  induction xs as [|x xs IH] using rev_ind.
  - split; [intros _; apply not_elem_of_nil|reflexivity].
  - rewrite dict_by_id_snoc, lookup_insert_None, fmap_app, not_elem_of_app, IH.
    cbn. rewrite list_elem_of_singleton. intuition congruence.
Qed.

Lemma dict_by_id_size {A} (key : A → Z) (xs : list A) :
  (size (dict_by_id key xs) ≤ length xs)%nat.
Proof.
  induction xs as [|x xs IH] using rev_ind; [reflexivity|].
  rewrite dict_by_id_snoc, map_size_insert, length_app. cbn.
  destruct (dict_by_id key xs !! key x); simpl; lia.
Qed.

Lemma dict_by_id_Some {A} (key : A → Z) (xs : list A) (k : Z) (u : A) :
  dict_by_id key xs !! k = Some u → u ∈ xs ∧ key u = k.
Proof.
  revert u. induction xs as [|x xs IH] using rev_ind; [intros u [=]|].
  intros u. rewrite dict_by_id_snoc, lookup_insert_Some, elem_of_app.
  intros [[Hk ->]|[Hk Hu]].
  - split; [right; apply list_elem_of_here|exact Hk].
  - destruct (IH u Hu) as [Hin Hkey]. auto.
Qed.

(** The dict built at lines 162-163 holds nothing but listed elements,
    each under its own [id]; an id has no entry exactly when no listed
    element carries it; and the dict has at most as many entries as the
    list has elements. *)
Theorem dict_by_id_holds_the_listed {A} (key : A → Z) (xs : list A) (k : Z) :
  (∀ u, dict_by_id key xs !! k = Some u → u ∈ xs ∧ key u = k) ∧
  (dict_by_id key xs !! k = None ↔ k ∉ key <$> xs) ∧
  (size (dict_by_id key xs) ≤ length xs)%nat.
Proof.
  split; [|split; [apply dict_by_id_None|apply dict_by_id_size]].
  intros u. apply dict_by_id_Some.
Qed.

(** When no two listed elements share an [id], every one of them is found
    under its [id] and the dict has as many entries as the list has
    elements. *)
Theorem dict_by_id_finds_each {A} (key : A → Z) (xs : list A) :
  NoDup (key <$> xs) →
  (∀ u, u ∈ xs → dict_by_id key xs !! key u = Some u) ∧
  size (dict_by_id key xs) = length xs.
Proof.
  induction xs as [|x xs IH] using rev_ind.
  - intros _. split; [intros u Hu; apply elem_of_nil in Hu as []|reflexivity].
  - rewrite fmap_app, NoDup_app. intros (Hxs & Hfresh & _).
    destruct (IH Hxs) as [Hfind Hsize].
    assert (Hnew : dict_by_id key xs !! key x = None).
    { apply dict_by_id_None. intros Hin. apply (Hfresh _ Hin).
      cbn. apply list_elem_of_here. }
    split.
    + intros u. rewrite elem_of_app, list_elem_of_singleton, dict_by_id_snoc.
      intros [Hu| ->].
      * rewrite lookup_insert_ne; [exact (Hfind u Hu)|].
        intros Heq. rewrite Heq, (Hfind u Hu) in Hnew. discriminate.
      * apply lookup_insert_eq.
    + rewrite dict_by_id_snoc, map_size_insert, Hnew, length_app. cbn. lia.
Qed.

Lemma dict_by_id_finds_each_witness :
  dict_by_id types.User.id [Demo.alice; Demo.bob] !! 2 = Some Demo.bob ∧
  size (dict_by_id types.User.id [Demo.alice; Demo.bob]) = 2%nat.
Proof.
  destruct (dict_by_id_finds_each types.User.id [Demo.alice; Demo.bob]) as [Hfind Hsize].
  { cbn. repeat constructor; rewrite ?elem_of_cons, ?elem_of_nil; intuition discriminate. }
  split; [|exact Hsize].
  apply (Hfind Demo.bob). right. apply list_elem_of_here.
Defined.

(** With user 1 listed twice the earlier element is gone from the dict. *)
Example duplicate_id_drops_the_earlier :
  size (dict_by_id types.User.id [Demo.alice; Demo.bob; Demo.alice']) = 2%nat ∧
  ∀ k, dict_by_id types.User.id [Demo.alice; Demo.bob; Demo.alice'] !! k ≠ Some Demo.alice.
Proof.
  split; [reflexivity|].
  intros k Hk. destruct (dict_by_id_Some _ _ _ _ Hk) as [_ <-].
  apply (f_equal (λ u, u ≫= λ v, Py.attrs (types.User.fields v) !! "bot")) in Hk.
  vm_compute in Hk. discriminate Hk.
Qed.

(** ** The further properties on the demo clients *)

Lemma parser_failure_witness :
  Faulty.say true None false Demo.user_777 Demo.confirmation Demo.start =
    (Raise (Failure "parser"), Demo.start, [parser_parse_call "hi" ModeUnset]).
Proof.
  exact (parser_failure_stops_everything
    (Faulty.client true None false Demo.user_777 Demo.confirmation)
    (ChatInt 777) "hi" ModeUnset None None None None None
    Demo.start (Failure "parser") Demo.start eq_refl).
Defined.

Lemma unresolved_peer_witness :
  value_of (Faulty.say false (Some 0%nat) false Demo.user_777 Demo.confirmation Demo.start) =
    Raise (Failure "PEER_ID_INVALID") ∧
  trace_of (Faulty.say false (Some 0%nat) false Demo.user_777 Demo.confirmation Demo.start) =
    [parser_parse_call "hi" ModeUnset; resolve_peer_call (ChatInt 777)].
Proof.
  unfold Faulty.say.
  rewrite (unresolved_peer_sends_nothing
    (Faulty.client false (Some 0%nat) false Demo.user_777 Demo.confirmation)
    (ChatInt 777) "hi" ModeUnset None None None None None
    Demo.start "hi" (Some 1%positive)
    (Demo.parse "hi" ModeUnset Demo.start).2
    (Failure "PEER_ID_INVALID")
    (State (heap (Demo.parse "hi" ModeUnset Demo.start).2) 1%nat)
    eq_refl eq_refl).
  split; reflexivity.
Defined.

Lemma send_failure_witness :
  value_of (Faulty.say false None true Demo.user_777 Demo.confirmation Demo.start) =
    Raise (Failure "FLOOD_WAIT") ∧
  trace_of (Faulty.say false None true Demo.user_777 Demo.confirmation Demo.start) =
    [parser_parse_call "hi" ModeUnset; resolve_peer_call (ChatInt 777); rnd_id_call;
     send_call (Demo.said None None)].
Proof.
  unfold Faulty.say.
  rewrite (send_failure_is_propagated
    (Faulty.client false None true Demo.user_777 Demo.confirmation)
    (ChatInt 777) "hi" ModeUnset None None None None None
    Demo.start "hi" (Some 1%positive)
    (Demo.parse "hi" ModeUnset Demo.start).2
    (types.InputPeerUser 777 0)
    (State (heap (Demo.parse "hi" ModeUnset Demo.start).2) 1%nat)
    4242
    (State (heap (Demo.parse "hi" ModeUnset Demo.start).2) 1%nat)
    None
    (State (heap (Demo.parse "hi" ModeUnset Demo.start).2) 1%nat)
    []
    (Failure "FLOOD_WAIT")
    (State (heap (Demo.parse "hi" ModeUnset Demo.start).2) 1%nat)
    eq_refl eq_refl eq_refl eq_refl eq_refl).
  split; reflexivity.
Defined.

Lemma confirmed_but_peer_unresolved_witness :
  value_of (Faulty.say false (Some 1%nat) false Demo.user_777 Demo.confirmation Demo.start) =
    Raise (Failure "PEER_ID_INVALID") ∧
  trace_of (Faulty.say false (Some 1%nat) false Demo.user_777 Demo.confirmation Demo.start) =
    [parser_parse_call "hi" ModeUnset; resolve_peer_call (ChatInt 777); rnd_id_call;
     send_call (Demo.said None None); resolve_peer_call (ChatInt 777)].
Proof.
  unfold Faulty.say.
  rewrite (proj1 (confirmed_but_peer_unresolved
    (Faulty.client false (Some 1%nat) false Demo.user_777 Demo.confirmation)
    (ChatInt 777) "hi" ModeUnset None None None None None
    Demo.start
    (state_of (build_and_send
       (Faulty.client false (Some 1%nat) false Demo.user_777 Demo.confirmation)
       (ChatInt 777) "hi" ModeUnset None None None None None Demo.start))
    (trace_of (build_and_send
       (Faulty.client false (Some 1%nat) false Demo.user_777 Demo.confirmation)
       (ChatInt 777) "hi" ModeUnset None None None None None Demo.start))
    "hi" (Some 1%positive) (types.UpdateShortSentMessage.Make 42 1000 (Some true))
    (Failure "PEER_ID_INVALID")
    (State (heap (Demo.parse "hi" ModeUnset Demo.start).2) 2%nat)
    eq_refl eq_refl)).
  split; reflexivity.
Defined.

Lemma confirmed_but_no_chat_id_witness :
  value_of (Demo.say Demo.channel_9 Demo.confirmation None None Demo.start) =
    Raise (AttributeError "InputPeerChannel" "chat_id") ∧
  trace_of (Demo.say Demo.channel_9 Demo.confirmation None None Demo.start) =
    [parser_parse_call "hi" ModeUnset; resolve_peer_call (ChatInt 777); rnd_id_call;
     send_call (functions.SendMessage.Make (types.InputPeerChannel 9 0) None None
                  None 4242 None None "hi" (Some 1%positive));
     resolve_peer_call (ChatInt 777)].
Proof.
  unfold Demo.say.
  rewrite (proj1 (confirmed_but_peer_has_no_chat_id
    (Demo.client Demo.channel_9 Demo.confirmation)
    (ChatInt 777) "hi" ModeUnset None None None None None
    Demo.start
    (state_of (build_and_send (Demo.client Demo.channel_9 Demo.confirmation)
       (ChatInt 777) "hi" ModeUnset None None None None None Demo.start))
    (trace_of (build_and_send (Demo.client Demo.channel_9 Demo.confirmation)
       (ChatInt 777) "hi" ModeUnset None None None None None Demo.start))
    "hi" (Some 1%positive) (types.UpdateShortSentMessage.Make 42 1000 (Some true))
    (types.InputPeerChannel 9 0)
    (State (heap (Demo.parse "hi" ModeUnset Demo.start).2) 2%nat)
    eq_refl eq_refl eq_refl eq_refl)).
  split; reflexivity.
Defined.

Lemma unexpected_response_witness :
  value_of (Faulty.say false None false Demo.user_777 Faulty.unexpected Demo.start) =
    Raise (AttributeError "UpdateShortMessage" "updates").
Proof.
  unfold Faulty.say.
  rewrite (unexpected_response_raises
    (Faulty.client false None false Demo.user_777 Faulty.unexpected)
    (ChatInt 777) "hi" ModeUnset None None None None None
    Demo.start
    (state_of (build_and_send
       (Faulty.client false None false Demo.user_777 Faulty.unexpected)
       (ChatInt 777) "hi" ModeUnset None None None None None Demo.start))
    (trace_of (build_and_send
       (Faulty.client false None false Demo.user_777 Faulty.unexpected)
       (ChatInt 777) "hi" ModeUnset None None None None None Demo.start))
    "hi" (Some 1%positive) (Py.Object "UpdateShortMessage" {[ "id" := 42 ]})
    eq_refl).
  reflexivity.
Defined.

(** A reply with a keyboard, scheduled. *)
Lemma sent_request_provenance_witness :
  send_call
    (functions.SendMessage.Make (types.InputPeerUser 777 0) None None
       (Some 12345) 4242 (Some 1700000000) (Some Faulty.keyboard) "hi"
       (Some 1%positive))
    ∈ trace_of
        (send_message (Demo.client Demo.user_777 Demo.confirmation)
           (ChatInt 777) "hi" ModeUnset None None (Some 12345) (Some 1700000000)
           (Some Faulty.keyboard) Demo.start) ∧
  (Demo.parse "hi" ModeUnset Demo.start).1 = Return ("hi", Some 1%positive) ∧
  reply_markup_write (Demo.client Demo.user_777 Demo.confirmation) Faulty.keyboard
    (State (heap (Demo.parse "hi" ModeUnset Demo.start).2) 1%nat) =
    (Return Faulty.keyboard, State (heap (Demo.parse "hi" ModeUnset Demo.start).2) 1%nat).
Proof.
  assert (Hin : send_call
    (functions.SendMessage.Make (types.InputPeerUser 777 0) None None
       (Some 12345) 4242 (Some 1700000000) (Some Faulty.keyboard) "hi"
       (Some 1%positive))
    ∈ trace_of
        (send_message (Demo.client Demo.user_777 Demo.confirmation)
           (ChatInt 777) "hi" ModeUnset None None (Some 12345) (Some 1700000000)
           (Some Faulty.keyboard) Demo.start)).
  { vm_compute. repeat constructor. }
  split; [exact Hin|].
  destruct (sent_request_provenance
    (Demo.client Demo.user_777 Demo.confirmation)
    (ChatInt 777) "hi" ModeUnset None None (Some 12345) (Some 1700000000)
    (Some Faulty.keyboard) Demo.start _ Hin)
    as (message & entities & sp & s2 & s3 & Hp & _ & _ & _ & _ & w & s4 & _ & _).
  split; reflexivity.
Defined.
